(** * riesgosutils: the S3 bridge and the DynamoDB table client of [s3.py]

    A shallow embedding of [riesgosutils/s3.py].  The two classes of the file,
    [S3ConnectionMR] and [DynamoDBConnection], are thin wrappers around the
    boto3 SDK, pandas and PySpark.  The wrappers themselves (their control
    flow, their exception handling, the way they take keys apart, what they
    log and what they return) are embedded function by function; the vendor
    libraries are the environment: the object store and its faults, the
    replies of the key-value service, and the pandas and codec entry points
    are explicit components of the model. *)

From Stdlib Require Import ZArith Ascii String List Sorted.
From stdpp Require Import base option list sorting gmap strings pretty.

Open Scope string_scope.
Open Scope Z_scope.

(** ** Python values the wrappers manipulate *)

Module Py.

(** Exceptions that the code raises itself or receives from a library.
    [ClientError] is botocore's service error; everything the source does not
    single out is an [OtherException] carrying the class name. *)
Inductive exn :=
| ClientError (code : string)
| ValueError (msg : string)
| AttributeError (msg : string)
| KeyError (key : string)
| OtherException (cls : string).

(** The clause [except ClientError] . *)
Definition is_ClientError (e : exn) : bool :=
  match e with ClientError _ => true | _ => false end.

(** Outcome of a call: a returned value or a raised exception. *)
Inductive res (A : Type) :=
| Ret (a : A)
| Raise (e : exn).
Arguments Ret {A} a.
Arguments Raise {A} e.

Definition bytes := list Byte.byte.

(** *** [str] methods

    A [str] is modelled by the sequence of its UTF-8 code units.  On the
    comparisons the source makes (against ["csv"], ["parquet"], [".csv"],
    [".parquet"] and ["/"]) this agrees with Python: [lower] maps no
    non-ASCII character to one of the letters of these words, and the
    byte-wise order of UTF-8 is the code point order. *)

Definition chars (s : string) : list ascii := list_ascii_of_string s.
Definition str (l : list ascii) : string := string_of_list_ascii l.

Definition lower_char (c : ascii) : ascii :=
  let n := N_of_ascii c in
  if ((65 <=? n) && (n <=? 90))%N then ascii_of_N (n + 32) else c.

(** [s.lower()] *)
Definition lower (s : string) : string := str (lower_char <$> chars s).

(** [s.endswith(c)] for a one-character suffix *)
Definition endswith (s : string) (c : ascii) : bool :=
  match last (chars s) with
  | Some d => bool_decide (d = c)
  | None => false
  end.

(** [s.rstrip(c)] for a one-character set *)
Fixpoint rstrip_chars (c : ascii) (l : list ascii) : list ascii :=
  match l with
  | [] => []
  | x :: r =>
      match rstrip_chars c r with
      | [] => if bool_decide (x = c) then [] else [x]
      | r' => x :: r'
      end
  end.
Definition rstrip (s : string) (c : ascii) : string := str (rstrip_chars c (chars s)).

(** [s.replace(a, b)] for single characters *)
Definition replace (s : string) (a b : ascii) : string :=
  str ((fun x => if bool_decide (x = a) then b else x) <$> chars s).

(** [s.split(sep)] for a one-character separator: never empty. *)
Fixpoint split_chars (sep : ascii) (l : list ascii) : list (list ascii) :=
  match l with
  | [] => [[]]
  | x :: r =>
      if bool_decide (x = sep) then [] :: split_chars sep r
      else match split_chars sep r with
           | h :: t => (x :: h) :: t
           | [] => [[x]]
           end
  end.
Definition split (s : string) (sep : ascii) : list string :=
  str <$> split_chars sep (chars s).

(** [l[-1]] on the result of [split] (which has at least one element) *)
Definition last_item (l : list string) : string := default "" (last l).

(** [s.rfind(c)]: the highest index of [c] in [s], or [-1]. *)
Fixpoint rfind_from (c : ascii) (l : list ascii) (i : Z) : Z :=
  match l with
  | [] => -1
  | x :: r =>
      let j := rfind_from c r (i + 1) in
      if 0 <=? j then j else if bool_decide (x = c) then i else -1
  end.
Definition rfind (s : string) (c : ascii) : Z := rfind_from c (chars s) 0.

(** Slices [p[:i]] and [p[i:]] for [0 <= i]. *)
Definition slice_to (l : list ascii) (i : Z) : list ascii := take (Z.to_nat i) l.
Definition slice_from (l : list ascii) (i : Z) : list ascii := drop (Z.to_nat i) l.

(** *** [os.path.splitext] (posixpath: [sep = '/'], no [altsep], [extsep = '.'])

    [genericpath._splitext]: the extension starts at the last dot of the last
    path component, unless that component has nothing but dots before it.
    The [while filenameIndex < dotIndex] loop runs at most
    [dotIndex - filenameIndex] times, the number of [steps] it is given;
    leaving the loop is [return p, p[:0]]. *)
Fixpoint splitext_loop (p : list ascii) (filenameIndex dotIndex : Z) (steps : nat)
  : list ascii * list ascii :=
  match steps with
  | O => (p, [])
  | S steps' =>
      if filenameIndex <? dotIndex then
        match p !! Z.to_nat filenameIndex with
        | Some c =>
            if bool_decide (c = "."%char)
            then splitext_loop p (filenameIndex + 1) dotIndex steps'
            else (slice_to p dotIndex, slice_from p dotIndex)
        | None => (slice_to p dotIndex, slice_from p dotIndex)
        end
      else (p, [])
  end.

Definition splitext (path : string) : string * string :=
  let p := chars path in
  let sepIndex := rfind path "/" in
  let dotIndex := rfind path "." in
  let '(root, ext) :=
    if sepIndex <? dotIndex
    then splitext_loop p (sepIndex + 1) dotIndex (Z.to_nat (dotIndex - (sepIndex + 1)))
    else (p, [])
  in (str root, str ext).

End Py.

Import Py.

(** ** The environment: services, local files, log *)

Module Env.

Inductive level := INFO | WARNING | ERROR.

(** A formatted message: the literal parts of the f-string and the values
    interpolated into it. *)
Inductive frag :=
| Lit (s : string)
| Val (s : string)
| ValN (n : nat)
| ValExn (e : exn)
| ValObj.

(** Attribute values and items of the key-value table. *)
Inductive attr := AttrS (s : string) | AttrN (n : Z).
Abbreviation item := (gmap string attr).

(** Requests sent to the object store. *)
Inductive s3_request :=
| ListObjectsV2 (bucket prefix delimiter : string)
| GetObject (bucket key : string)
| PutObject (bucket key : string) (body : bytes)
| UploadFile (file bucket key : string)
| DownloadFile (bucket key file : string).

(** Requests sent to the key-value table [table]. *)
Inductive table_request :=
| PutItem (table : string) (i : item)
| GetItem (table : string) (key : item)
| UpdateItem (table : string) (key : item) (update_expression : string)
    (expression_values : item) (return_values : string)
| DeleteItem (table : string) (key : item)
| Scan (table : string) (filter_expression : option string)
    (expression_values : option item) (limit : option Z)
| Query (table : string) (partition_key : string) (partition_value : attr).

(** The dictionary a table request answers with; only the entries the code
    reads are represented, each present or absent. *)
Record table_response := TableResponse {
  Item : option item;
  Attributes : option item;
  Items : option (list item)
}.

(** A page of [list_objects_v2]: the [CommonPrefixes] and [Contents]
    entries, each possibly missing, as the prefixes and keys they carry. *)
Record page := Page {
  CommonPrefixes : option (list string);
  Contents : option (list string)
}.

(** A temporary file name: [NamedTemporaryFile] puts a fresh middle part
    between the prefix and the suffix it is given. *)
Record tmp_name := TmpName { tmp_prefix : string; tmp_serial : nat; tmp_suffix : string }.

(** What can be observed of a run, in order. *)
Inductive event :=
| S3Call (r : s3_request)
| TableCall (r : table_request)
| Log (l : level) (msg : list frag)
| Warn (msg : string)
| TempFile (name : tmp_name) (content : bytes).

(** The world a call runs in.  [s3_objects] is the content of the store,
    keyed by bucket and key; [s3_fault] says which requests the store fails
    and how; [s3_pages] is what the list paginator yields for a bucket,
    prefix and delimiter: pages, then possibly a failure; [table_reply] is
    the key-value service; [local_files] are the files of the host;
    [trace] records the events so far, latest first. *)
Record world := World {
  s3_objects : gmap (string * string) bytes;
  s3_fault : s3_request → option exn;
  s3_pages : string → string → string → list page * option exn;
  table_reply : table_request → res table_response;
  local_files : gmap string bytes;
  tmp_next : nat;
  trace : list event
}.

Definition emit (e : event) (w : world) : world :=
  World (s3_objects w) (s3_fault w) (s3_pages w) (table_reply w)
        (local_files w) (tmp_next w) (e :: trace w).

Definition set_objects (o : gmap (string * string) bytes) (w : world) : world :=
  World o (s3_fault w) (s3_pages w) (table_reply w)
        (local_files w) (tmp_next w) (trace w).

Definition set_local_files (f : gmap string bytes) (w : world) : world :=
  World (s3_objects w) (s3_fault w) (s3_pages w) (table_reply w)
        f (tmp_next w) (trace w).

Definition bump_tmp (w : world) : world :=
  World (s3_objects w) (s3_fault w) (s3_pages w) (table_reply w)
        (local_files w) (S (tmp_next w)) (trace w).

(** *** The monad of effectful calls: state and exceptions *)

Definition M (A : Type) : Type := world → res A * world.

Definition ret {A} (a : A) : M A := fun w => (Ret a, w).
Definition raise {A} (e : exn) : M A := fun w => (Raise e, w).
Definition bind {A B} (m : M A) (k : A → M B) : M B :=
  fun w => match m w with
           | (Ret a, w') => k a w'
           | (Raise e, w') => (Raise e, w')
           end.

#[global] Instance M_ret : MRet M := @ret.
#[global] Instance M_bind : MBind M := fun A B k m => bind m k.

(** [try: body  except <handles>: handler].  An exception the clause does
    not handle goes on to the caller. *)
Definition try_except {A} (body : M A) (handles : exn → bool) (handler : exn → M A) : M A :=
  fun w => match body w with
           | (Ret a, w') => (Ret a, w')
           | (Raise e, w') => if handles e then handler e w' else (Raise e, w')
           end.

(** [except:] and [except Exception] take every exception of the model. *)
Definition any_exception (e : exn) : bool := true.

Definition tell (e : event) : M unit := fun w => (Ret tt, emit e w).
Definition logging (l : level) (msg : list frag) : M unit := tell (Log l msg).
Definition warnings_warn (msg : string) : M unit := tell (Warn msg).

End Env.

Import Env.

(** ** The libraries the bridge calls: pandas, the text codecs, PySpark *)

(** Keyword arguments [read_from_s3] hands to [pd.read_csv]. *)
Record read_csv_kwargs := ReadCsvKwargs {
  kw_encoding : string;
  kw_nrows : option Z;
  kw_dtype : option string;
  kw_usecols : option (list string);
  kw_chunksize : option Z;
  kw_sep : string;
  kw_index_col : option string
}.

(** pandas and the codecs are outside the repository: the bridge is embedded
    over any implementation of the entry points it calls.  [DataFrame] is
    what pandas hands back (a frame, or a chunk reader when [chunksize] is
    given); [to_csv df index] is the text [df.to_csv(buffer, index=index)]
    leaves in the buffer; [read_parquet] decodes the content of the file at
    the path it is given; [str_encode] is the UTF-8 encoding botocore applies
    to a [str] body, [bytes_decode enc] is [bytes.decode(enc)]. *)
Class Libs := {
  DataFrame : Type;
  shape0 : DataFrame → nat;
  columns : DataFrame → list string;
  to_csv : DataFrame → bool → res string;
  to_parquet : DataFrame → bool → res bytes;
  read_csv : string → read_csv_kwargs → res DataFrame;
  read_parquet : bytes → res DataFrame;
  str_encode : string → bytes;
  bytes_decode : string → bytes → res string
}.

Module Spark.

Inductive StorageLevel := DISK_ONLY | MEMORY_AND_DISK | MEMORY_ONLY_SER.

(** [engine.sparkContext]: the two attributes the bridge reads. *)
Record SparkContext := { appName : string; applicationId : string }.

(** A distributed table, as the sequence of calls that built it. *)
Inductive SparkDF :=
| ReadCsv (path : tmp_name) (header inferSchema : bool)
| ReadParquet (path : tmp_name)
| Limit (n : Z) (df : SparkDF)
| Persist (l : StorageLevel) (df : SparkDF).

(** The [engine] argument: [None], a [SparkSession], or some other object,
    which may or may not have a [sparkContext] attribute. *)
Inductive engine :=
| EngineNone
| SparkSession (sc : SparkContext)
| OtherObject (sc : option SparkContext).

(** [engine.sparkContext] *)
Definition sparkContext (e : engine) : M SparkContext :=
  match e with
  | EngineNone => raise (AttributeError "'NoneType' object has no attribute 'sparkContext'")
  | SparkSession sc => mret sc
  | OtherObject (Some sc) => mret sc
  | OtherObject None => raise (AttributeError "object has no attribute 'sparkContext'")
  end.

End Spark.

Import Spark.

(** ** [class S3ConnectionMR] *)

Module S3.

(** The boto3 client; [s3_client] is [None] when [get_client] logged a
    failure instead of returning one. *)
Inductive client := Boto3Client.

Record S3ConnectionMR := {
  bucket : string;
  s3_client : option client;
  base_path : option string
}.

(** Entries of the dictionary [get_object] answers with. *)
Inductive field :=
| StreamingBody (content : bytes)
| Num (n : Z)
| Text (s : string).

Abbreviation response := (gmap string field).

(** What the [Body] argument of [put_object] can be. *)
Inductive body_arg := StrBody (s : string) | BytesBody (b : bytes).

(** The value [read_from_s3] returns when it is not [None]. *)
Inductive table `{Libs} :=
| LocalTable (df : DataFrame)
| DistributedTable (df : SparkDF).

(** The result of [scan]: the dictionary with its two lists. *)
Record listing := Listing { folders : list string; files : list string }.

(** [sorted] on strings: the sorted permutation of its argument (unique,
    the order being total and antisymmetric). *)
Definition sorted (l : list string) : list string := merge_sort String.le l.

Section methods.
Context `{Libs}.

Definition lift {A} (r : res A) : M A := fun w => (r, w).

(** *** The client's methods *)

(** [self.s3_client.<method>]: an attribute of [None] when there is no
    client. *)
Definition client_attr (self : S3ConnectionMR) (method : string) : M client :=
  match s3_client self with
  | Some c => mret c
  | None => raise (AttributeError ("'NoneType' object has no attribute '" +:+ method +:+ "'"))
  end.

Definition get_object_response (content : bytes) : response :=
  {[ "Body" := StreamingBody content;
     "ContentLength" := Num (Z.of_nat (length content)) ]}.

(** [s3_client.get_object(Bucket=.., Key=..)] *)
Definition get_object (Bucket Key : string) : M response := fun w =>
  let w' := emit (S3Call (GetObject Bucket Key)) w in
  match s3_fault w (GetObject Bucket Key) with
  | Some e => (Raise e, w')
  | None =>
      match s3_objects w !! (Bucket, Key) with
      | Some content => (Ret (get_object_response content), w')
      | None => (Raise (ClientError "NoSuchKey"), w')
      end
  end.

Definition body_bytes (b : body_arg) : bytes :=
  match b with StrBody s => str_encode s | BytesBody b => b end.

(** [s3_client.put_object(Body=.., Bucket=.., Key=..)] *)
Definition put_object (Body : body_arg) (Bucket Key : string) : M unit := fun w =>
  let r := PutObject Bucket Key (body_bytes Body) in
  let w' := emit (S3Call r) w in
  match s3_fault w r with
  | Some e => (Raise e, w')
  | None => (Ret tt, set_objects (<[(Bucket, Key) := body_bytes Body]> (s3_objects w)) w')
  end.

(** [s3_client.upload_file(file, bucket, Key=key, Config=config)] *)
Definition upload_file (file Bucket Key : string) : M unit := fun w =>
  match local_files w !! file with
  | None => (Raise (OtherException "FileNotFoundError"), w)
  | Some content =>
      let r := UploadFile file Bucket Key in
      let w' := emit (S3Call r) w in
      match s3_fault w r with
      | Some e => (Raise e, w')
      | None => (Ret tt, set_objects (<[(Bucket, Key) := content]> (s3_objects w)) w')
      end
  end.

(** [s3_client.download_file(bucket, key, file)] *)
Definition download_file (Bucket Key file : string) : M unit := fun w =>
  let r := DownloadFile Bucket Key file in
  let w' := emit (S3Call r) w in
  match s3_fault w r with
  | Some e => (Raise e, w')
  | None =>
      match s3_objects w !! (Bucket, Key) with
      | Some content => (Ret tt, set_local_files (<[file := content]> (local_files w)) w')
      | None => (Raise (ClientError "404"), w')
      end
  end.

(** [paginator.paginate(Bucket=.., Prefix=.., Delimiter=..)], run to its
    end: every page it yields, or the failure that interrupts it. *)
Definition paginate (Bucket Prefix Delimiter : string) : M (list page) := fun w =>
  let w' := emit (S3Call (ListObjectsV2 Bucket Prefix Delimiter)) w in
  match s3_pages w Bucket Prefix Delimiter with
  | (pages, None) => (Ret pages, w')
  | (_, Some e) => (Raise e, w')
  end.

(** [d[k]] and [body.read()] on a response *)
Definition getitem (d : response) (k : string) : M field :=
  match d !! k with
  | Some v => mret v
  | None => raise (KeyError k)
  end.

Definition read (f : field) : M bytes :=
  match f with
  | StreamingBody content => mret content
  | _ => raise (AttributeError "object has no attribute 'read'")
  end.

(** [tempfile.NamedTemporaryFile(delete=False, prefix=.., suffix=..)],
    [write(content)], [close()] *)
Definition NamedTemporaryFile (prefix suffix : string) (content : bytes) : M tmp_name :=
  fun w =>
    let name := TmpName prefix (tmp_next w) suffix in
    (Ret name, emit (TempFile name content) (bump_tmp w)).

(** *** [scan] *)

Record scan_result := ScanResult { acc_folders : gset string; acc_files : list string }.

(** The body of the loop over the pages. *)
Definition scan_page (recursive : bool) (result : scan_result) (p : page) : scan_result :=
  let result1 :=
    if negb recursive
    then ScanResult (foldl (fun s cp => s ∪ {[cp]}) (acc_folders result)
                       (default [] (CommonPrefixes p)))
                    (acc_files result)
    else result in
  ScanResult (acc_folders result1)
    (foldl (fun fs key => if endswith key "/" then fs else (fs ++ [key])%list)
       (acc_files result1) (default [] (Contents p))).

Definition truthy (s : string) : bool := negb (bool_decide (s = "")).

Definition scan (self : S3ConnectionMR) (path : string) (recursive : bool) : M listing :=
  try_except
    (_ ← client_attr self "get_paginator";
     let Prefix :=
       if truthy path && negb (endswith path "/") then rstrip path "/" +:+ "/" else path in
     let Delimiter := if recursive then "" else "/" in
     pages ← paginate (bucket self) Prefix Delimiter;
     let result := foldl (scan_page recursive) (ScanResult ∅ []) pages in
     mret (Listing (sorted (elements (acc_folders result))) (sorted (acc_files result))))
    any_exception
    (fun e =>
       _ ← logging ERROR [Lit "Error scanning S3 path '"; Val path; Lit "': "; ValExn e];
       mret (Listing [] [])).

(** *** [read_from_s3] *)

(** [if nrows:] *)
Definition nrows_truthy (nrows : option Z) : bool :=
  match nrows with
  | Some n => negb (n =? 0)
  | None => false
  end.

Definition spark_limit (nrows : option Z) (df : SparkDF) : SparkDF :=
  match nrows with
  | Some n => if nrows_truthy nrows then Limit n df else df
  | None => df
  end.

Definition unsupported_format_warning : string :=
  "Unsupported file format. Only CSV and Parquet are supported.".
Definition invalid_engine_message : string :=
  "Invalid engine type. Use None for Pandas or a SparkSession object for PySpark.".

Definition read_from_s3 (self : S3ConnectionMR) (filename : string) (engine : engine)
    (kw : read_csv_kwargs) (header : bool) (persistence : StorageLevel)
  : M (option table) :=
  _ ← client_attr self "get_object";
  response ← get_object (bucket self) filename;
  let file_extension := lower (last_item (split filename ".")) in
  if negb (bool_decide (file_extension ∈ ["csv"; "parquet"])) then
    _ ← warnings_warn unsupported_format_warning;
    mret None
  else if bool_decide (file_extension = "csv") then
    match engine with
    | EngineNone =>
        body ← getitem response "Body";
        content ← read body;
        text ← lift (bytes_decode (kw_encoding kw) content);
        df ← lift (read_csv text kw);
        mret (Some (LocalTable df))
    | SparkSession _ =>
        sc ← sparkContext engine;
        let app_name := replace (appName sc) " " "_" in
        let app_id := applicationId sc in
        body ← getitem response "Body";
        content ← read body;
        temp_file ← NamedTemporaryFile (app_name +:+ "_") ".csv" content;
        let df := ReadCsv temp_file header true in
        let df := spark_limit (kw_nrows kw) df in
        mret (Some (DistributedTable (Persist persistence df)))
    | OtherObject _ => raise (ValueError invalid_engine_message)
    end
  else if bool_decide (file_extension = "parquet") then
    sc ← sparkContext engine;
    let app_name := replace (appName sc) " " "_" in
    let app_id := applicationId sc in
    body ← getitem response "Body";
    content ← read body;
    temp_file ← NamedTemporaryFile (app_name +:+ "_") ".parquet" content;
    match engine with
    | EngineNone =>
        df ← lift (read_parquet content);
        mret (Some (LocalTable df))
    | SparkSession _ =>
        let df := ReadParquet temp_file in
        let df := spark_limit (kw_nrows kw) df in
        mret (Some (DistributedTable (Persist persistence df)))
    | OtherObject _ => raise (ValueError invalid_engine_message)
    end
  else mret None.

(** The defaults of the signature: [nrows=None, dtype=None, usecols=None,
    index_col=None, chunksize=None, encoding='utf-8', sep=",", header=True,
    persistence=StorageLevel.DISK_ONLY]. *)
Definition default_kwargs : read_csv_kwargs :=
  ReadCsvKwargs "utf-8" None None None None "," None.

Definition read_from_s3_default (self : S3ConnectionMR) (filename : string) (engine : engine)
  : M (option table) :=
  read_from_s3 self filename engine default_kwargs true DISK_ONLY.

(** *** [load_from_s3] *)

(** [response.get("body")]: the entry, or [None] when the dictionary has
    no such key. *)
Definition load_from_s3 (self : S3ConnectionMR) (filename : string) : M (option field) :=
  _ ← client_attr self "get_object";
  response ← get_object (bucket self) filename;
  mret (response !! "body").

(** *** [df_to_s3] *)

Definition df_to_s3 (self : S3ConnectionMR) (df : option DataFrame) (key : option string)
    (index : bool) : M unit :=
  match df, key with
  | Some df, Some key =>
      let ext := lower (snd (splitext key)) in
      body ←
        (if bool_decide (ext = ".csv") then
           text ← lift (to_csv df index);
           mret (StrBody text)
         else if bool_decide (ext = ".parquet") then
           content ← lift (to_parquet df index);
           mret (BytesBody content)
         else
           raise (ValueError "Unsupported file extension. Use a key ending in '.csv' or '.parquet'."));
      _ ← client_attr self "put_object";
      _ ← put_object body (bucket self) key;
      logging INFO [Lit "File with "; ValN (shape0 df); Lit " rows was written to ";
                    Val key; Lit " (index="; Val (if index then "True" else "False"); Lit ")"]
  | _, _ => raise (ValueError "Both 'df' and 'key' must be provided.")
  end.

(** *** [s3_load_file], [s3_upload], [s3_download] *)

Definition s3_load_file (self : S3ConnectionMR) (key : string) : M (option bytes) :=
  try_except
    (_ ← client_attr self "get_object";
     response ← get_object (bucket self) key;
     _ ← logging INFO [Lit "key '"; Val (bucket self); Lit "/"; Val key;
                       Lit "' has been dowloaded from S3!"];
     body ← getitem response "Body";
     content ← read body;
     mret (Some content))
    any_exception
    (fun _ =>
       _ ← logging ERROR [Lit "The key '"; Val (bucket self); Lit "/"; Val key;
                          Lit "' was not downloaded make sure the file exists."];
       mret None).

Definition s3_upload (self : S3ConnectionMR) (file key : string) : M unit :=
  try_except
    (_ ← client_attr self "upload_file";
     upload_file file (bucket self) key)
    any_exception
    (fun _ =>
       logging ERROR [Lit "The file "; Val file; Lit " could not be uploaded to ";
                      Val (bucket self)]).

Definition s3_download (self : S3ConnectionMR) (file key : string) : M unit :=
  _ ← client_attr self "download_file";
  download_file (bucket self) key file.

End methods.
End S3.

(** ** [class DynamoDBConnection] *)

Module Dynamo.

(** The boto3 resource, and a table of it. *)
Inductive resource := Boto3Resource.
Record Table := { name : string }.

(** [dynamodb] is [None] when [get_client] failed; [table] is [None] until
    [connect_table] succeeds: the handle is then Disconnected. *)
Record DynamoDBConnection := {
  dynamodb : option resource;
  table : option Table
}.

(** [self.table.<operation>(..)]: the request goes to the service, which
    answers or raises. *)
Definition table_call (r : table_request) : M table_response := fun w =>
  (table_reply w r, emit (TableCall r) w).

Definition no_table_connected : M unit := logging ERROR [Lit "No table connected."].

(** [connect_table]: the handle after the call. *)
Definition connect_table (self : DynamoDBConnection) (table_name : string)
  : M DynamoDBConnection :=
  match dynamodb self with
  | Some r =>
      _ ← logging INFO [Lit "Connected to table "; Val table_name];
      mret {| dynamodb := dynamodb self; table := Some {| name := table_name |} |}
  | None =>
      _ ← logging ERROR [Lit "DynamoDB client is not initialized."];
      mret self
  end.

Definition put_item (self : DynamoDBConnection) (i : item) : M (option table_response) :=
  match table self with
  | None => _ ← no_table_connected; mret None
  | Some t =>
      try_except
        (response ← table_call (PutItem (name t) i);
         _ ← logging INFO [Lit "Item successfully put in table "; Val (name t)];
         mret (Some response))
        is_ClientError
        (fun e =>
           _ ← logging ERROR [Lit "Error putting item in table "; Val (name t);
                              Lit ": "; ValExn e];
           mret None)
  end.

Definition get_item (self : DynamoDBConnection) (key : item) : M (option item) :=
  match table self with
  | None => _ ← no_table_connected; mret None
  | Some t =>
      try_except
        (response ← table_call (GetItem (name t) key);
         match Item response with
         | Some i =>
             _ ← logging INFO [Lit "Item retrieved from "; Val (name t); Lit ": "; ValObj];
             mret (Some i)
         | None =>
             _ ← logging WARNING [Lit "Item not found in "; Val (name t);
                                  Lit " for key: "; ValObj];
             mret None
         end)
        is_ClientError
        (fun e =>
           _ ← logging ERROR [Lit "Error retrieving item from table "; Val (name t);
                              Lit ": "; ValExn e];
           mret None)
  end.

Definition update_item (self : DynamoDBConnection) (key : item)
    (update_expression : string) (expression_values : item) : M (option item) :=
  match table self with
  | None => _ ← no_table_connected; mret None
  | Some t =>
      try_except
        (response ← table_call
           (UpdateItem (name t) key update_expression expression_values "UPDATED_NEW");
         match Attributes response with
         | Some a =>
             _ ← logging INFO [Lit "Item updated in "; Val (name t); Lit ": "; ValObj];
             mret (Some a)
         | None => raise (KeyError "Attributes")
         end)
        is_ClientError
        (fun e =>
           _ ← logging ERROR [Lit "Error updating item in table "; Val (name t);
                              Lit ": "; ValExn e];
           mret None)
  end.

Definition delete_item (self : DynamoDBConnection) (key : item) : M (option table_response) :=
  match table self with
  | None => _ ← no_table_connected; mret None
  | Some t =>
      try_except
        (response ← table_call (DeleteItem (name t) key);
         _ ← logging INFO [Lit "Item successfully deleted from "; Val (name t)];
         mret (Some response))
        is_ClientError
        (fun e =>
           _ ← logging ERROR [Lit "Error deleting item from table "; Val (name t);
                              Lit ": "; ValExn e];
           mret None)
  end.

(** [if filter_expression:] and [if limit:] *)
Definition expr_truthy (e : option string) : bool :=
  match e with Some s => negb (bool_decide (s = "")) | None => false end.
Definition limit_truthy (l : option Z) : bool :=
  match l with Some n => negb (n =? 0) | None => false end.

Definition scan_table (self : DynamoDBConnection) (filter_expression : option string)
    (expression_values : option item) (limit : option Z) : M (list item) :=
  match table self with
  | None => _ ← no_table_connected; mret []
  | Some t =>
      try_except
        (let scan_params :=
           Scan (name t)
             (if expr_truthy filter_expression then filter_expression else None)
             (if expr_truthy filter_expression then expression_values else None)
             (if limit_truthy limit then limit else None) in
         response ← table_call scan_params;
         let items := default [] (Items response) in
         _ ← logging INFO [Lit "Scanned "; ValN (length items); Lit " items from ";
                           Val (name t); Lit " with a limit of "; ValObj];
         mret items)
        is_ClientError
        (fun e =>
           _ ← logging ERROR [Lit "Error scanning table "; Val (name t); Lit ": "; ValExn e];
           mret [])
  end.

Definition query_table (self : DynamoDBConnection) (partition_key : string)
    (partition_value : attr) : M (list item) :=
  match table self with
  | None => _ ← no_table_connected; mret []
  | Some t =>
      try_except
        (response ← table_call (Query (name t) partition_key partition_value);
         let items := default [] (Items response) in
         _ ← logging INFO [Lit "Queried "; ValN (length items); Lit " items from "; Val (name t)];
         mret items)
        is_ClientError
        (fun e =>
           _ ← logging ERROR [Lit "Error querying table "; Val (name t); Lit ": "; ValExn e];
           mret [])
  end.

End Dynamo.

(** ** The rest of [class S3ConnectionMR]: [s3_find_csv], [s3_upload_df] *)

Module S3Rest.

(** [p] is a prefix of [s]: [s.startswith(p)]. *)
Fixpoint is_prefix (p s : list ascii) : bool :=
  match p, s with
  | [], _ => true
  | a :: p', b :: s' => bool_decide (a = b) && is_prefix p' s'
  | _ :: _, [] => false
  end.
Definition startswith (s p : string) : bool := is_prefix (chars p) (chars s).

(** [sub in s] on strings: [sub] occurs somewhere in [s]. *)
Fixpoint occurs (sub s : list ascii) : bool :=
  is_prefix sub s || match s with [] => false | _ :: s' => occurs sub s' end.

(** [sub in s] when [sub] may be [None]: a [TypeError] then. *)
Definition py_in (sub : option string) (s : string) : res bool :=
  match sub with
  | Some sub => Ret (occurs (chars sub) (chars s))
  | None => Raise (OtherException "TypeError")
  end.

(** The list comprehension of [s3_find_csv]: [and] evaluates its second
    operand only when the first holds; the first element whose test raises
    ends the comprehension. *)
Fixpoint find_keys (path suffix : option string) (keys : list string) : res (list string) :=
  match keys with
  | [] => Ret []
  | key :: rest =>
      match py_in path key with
      | Raise e => Raise e
      | Ret false => find_keys path suffix rest
      | Ret true =>
          match py_in suffix key with
          | Raise e => Raise e
          | Ret keep =>
              match find_keys path suffix rest with
              | Ret found => Ret (if keep then key :: found else found)
              | Raise e => Raise e
              end
          end
      end
  end.

(** [s3_client.list_objects_v2(Bucket=..)]: one request, no prefix and no
    delimiter; its answer is the first page the paginator would yield for
    the same parameters (a listing without pages answers without entries). *)
Definition list_objects_v2 (Bucket : string) : M page := fun w =>
  let w' := emit (S3Call (ListObjectsV2 Bucket "" "")) w in
  match s3_pages w Bucket "" "" with
  | (first :: _, _) => (Ret first, w')
  | ([], Some e) => (Raise e, w')
  | ([], None) => (Ret (Page None None), w')
  end.

Definition s3_find_csv (self : S3.S3ConnectionMR) (path suffix : option string)
  : M (list string) :=
  _ ← S3.client_attr self "list_objects_v2";
  response ← list_objects_v2 (S3.bucket self);
  match Contents response with
  | None => raise (KeyError "Contents")
  | Some objects => S3.lift (find_keys path suffix objects)
  end.

(** The path of a temporary file, in the temporary directory of the host. *)
Definition tmp_path (name : tmp_name) : string :=
  "/tmp/" +:+ tmp_prefix name +:+ pretty (tmp_serial name) +:+ tmp_suffix name.

(** [s3_client.upload_file(tmp_file.name, bucket, key, Config=..)] for a
    temporary file that holds [content]. *)
Definition upload_tmp_file (name : tmp_name) (content : bytes) (Bucket Key : string)
  : M unit := fun w =>
  let r := UploadFile (tmp_path name) Bucket Key in
  let w' := emit (S3Call r) w in
  match s3_fault w r with
  | Some e => (Raise e, w')
  | None => (Ret tt, set_objects (<[(Bucket, Key) := content]> (s3_objects w)) w')
  end.

(** The [Prefix] and [Delimiter] parameters [scan] computes. *)
Definition scan_prefix (path : string) : string :=
  if S3.truthy path && negb (endswith path "/") then rstrip path "/" +:+ "/" else path.
Definition scan_delimiter (recursive : bool) : string := if recursive then "" else "/".

(** The keyword arguments with another [nrows]. *)
Definition with_nrows (nrows : option Z) (kw : read_csv_kwargs) : read_csv_kwargs :=
  ReadCsvKwargs (kw_encoding kw) nrows (kw_dtype kw) (kw_usecols kw) (kw_chunksize kw)
    (kw_sep kw) (kw_index_col kw).

Section upload_df.
Context `{Libs}.

(** [s3_upload_df]: the temporary file is created empty (default prefix
    ["tmp"], [delete=False]), [df.to_csv(tmp_file.name, index=False)] writes
    the UTF-8 text into it, and the file is uploaded; only [ClientError] is
    handled. *)
Definition s3_upload_df (self : S3.S3ConnectionMR) (df : DataFrame) (key : string) : M unit :=
  try_except
    (tmp_file ← S3.NamedTemporaryFile "tmp" ".csv" [];
     text ← S3.lift (to_csv df false);
     _ ← tell (TempFile tmp_file (str_encode text));
     _ ← S3.client_attr self "upload_file";
     upload_tmp_file tmp_file (str_encode text) (S3.bucket self) key)
    is_ClientError
    (fun e =>
       logging ERROR [Lit "The DataFrame could not be uploaded to "; Val (S3.bucket self);
                      Lit "/"; Val key]).

End upload_df.
End S3Rest.

(** ** [clear_cache]: the temporary directory of the host *)

Module Cache.

(** An entry of the directory: a file, or a directory ([os.remove] refuses
    it). *)
Inductive entry := File (content : bytes) | Directory.

(** The host as [clear_cache] sees it: the temporary directory, its entries
    in the order [os.listdir] gives them, and what was printed, latest
    first. *)
Record host := Host {
  temp_dir : string;
  entries : list (string * entry);
  stdout : list (list frag)
}.

Definition print (line : list frag) (h : host) : host :=
  Host (temp_dir h) (entries h) (line :: stdout h).

(** [os.path.join(a, b)] (posixpath, two components) *)
Definition join (a b : string) : string :=
  if S3Rest.startswith b "/" then b
  else if bool_decide (a = "") || endswith a "/" then a +:+ b
  else a +:+ "/" +:+ b.

(** [os.remove(os.path.join(temp_dir, file))] *)
Definition remove (file : string) (h : host) : res unit * host :=
  match list_find (fun e => fst e = file) (entries h) with
  | Some (_, (_, File _)) =>
      (Ret tt, Host (temp_dir h) (filter (fun e => fst e ≠ file) (entries h)) (stdout h))
  | Some (_, (_, Directory)) => (Raise (OtherException "IsADirectoryError"), h)
  | None => (Raise (OtherException "FileNotFoundError"), h)
  end.

(** The [for file in os.listdir(temp_dir)] loop, over the names listed when
    it starts. *)
Fixpoint clear_loop (app_name : string) (names : list string) (h : host) : res unit * host :=
  match names with
  | [] => (Ret tt, h)
  | file :: rest =>
      if S3Rest.startswith file app_name then
        let file_path := join (temp_dir h) file in
        match remove file h with
        | (Ret _, h1) =>
            clear_loop app_name rest (print [Lit "Eliminado: "; Val file_path] h1)
        | (Raise e, h1) => (Raise e, h1)
        end
      else clear_loop app_name rest h
  end.

(** [spark_session.sparkContext], read before the [try]. *)
Definition context_of (e : engine) : res SparkContext :=
  match e with
  | EngineNone => Raise (AttributeError "'NoneType' object has no attribute 'sparkContext'")
  | SparkSession sc => Ret sc
  | OtherObject (Some sc) => Ret sc
  | OtherObject None => Raise (AttributeError "object has no attribute 'sparkContext'")
  end.

Definition clear_cache (spark_session : engine) (h : host) : res unit * host :=
  match context_of spark_session with
  | Raise e => (Raise e, h)
  | Ret sc =>
      let app_name := replace (appName sc) " " "_" in
      match clear_loop app_name (fst <$> entries h) h with
      | (Ret _, h1) => (Ret tt, h1)
      | (Raise e, h1) => (Ret tt, print [Lit "Error al limpiar caché: "; ValExn e] h1)
      end
  end.

End Cache.

(** ** [create_table] *)

Module Provision.





End Provision.

(** ** Encoding a table and decoding it again, without the store

    What "encode and decode" is for a local table when no object store is
    involved: [df.to_csv(index=index)] gives the text, the text goes through
    UTF-8, and [pd.read_csv] with the given options decodes it. *)

Module Codec.
Section codec.
Context `{Libs}.


End codec.
End Codec.

(** ** A small implementation of the libraries, and worlds to run in

    Frames that are their own CSV text: enough to run the bridge on concrete
    inputs. *)

Module Demo.

Definition encode_utf8 (s : string) : bytes := byte_of_ascii <$> chars s.
Definition decode_bytes (b : bytes) : string := str (ascii_of_byte <$> b).

Definition TextFrames : Libs := {|
  DataFrame := string;
  shape0 df := Nat.pred (length (split df "010"));
  columns df := split (default "" (head (split df "010"))) ",";
  to_csv df _ := Ret df;
  to_parquet df _ := Ret (encode_utf8 df);
  read_csv text _ := Ret text;
  read_parquet content := Ret (decode_bytes content);
  str_encode := encode_utf8;
  bytes_decode enc content :=
    if bool_decide (enc = "utf-8") then Ret (decode_bytes content)
    else Raise (OtherException "LookupError")
|}.

(** A world with the given objects and pages, a store that fails the
    requests [fault] names, and a key-value service that answers [reply]. *)
Definition world_of (objects : gmap (string * string) bytes)
    (fault : s3_request → option exn) (pages : list page * option exn)
    (reply : table_request → res table_response) : world :=
  World objects fault (fun _ _ _ => pages) reply ∅ 0 [].

Definition no_fault : s3_request → option exn := fun _ => None.
Definition no_reply : table_request → res table_response :=
  fun _ => Ret (TableResponse None None None).

Definition conn : S3.S3ConnectionMR :=
  {| S3.bucket := "risk"; S3.s3_client := Some S3.Boto3Client; S3.base_path := None |}.

End Demo.

(** Stores to run the bridge on. *)

Module Runs.

Definition sample : string := "a,b" +:+ String "010" "1,2".
Definition parquet_bytes : bytes := [Byte.x50; Byte.x41; Byte.x52; Byte.x31].

Definition empty_store : world :=
  Demo.world_of ∅ Demo.no_fault ([], None) Demo.no_reply.

Definition store : world :=
  Demo.world_of
    {[ ("risk", "data/loans.parquet") := parquet_bytes;
       ("risk", "data/loans.csv") := Demo.encode_utf8 sample;
       ("risk", "notes.txt") := Demo.encode_utf8 "hello";
       ("risk", "raw.bin") := parquet_bytes ]}
    Demo.no_fault ([], None) Demo.no_reply.

Definition unreachable_store : world :=
  Demo.world_of ∅ (fun _ => Some (ClientError "AccessDenied"))
    ([], Some (ClientError "AccessDenied")) Demo.no_reply.

Definition session : engine :=
  SparkSession {| appName := "risk report"; applicationId := "app-0001" |}.

Definition with_file (w : world) : world :=
  set_local_files {[ "/tmp/loans.csv" := Demo.encode_utf8 sample ]} w.

End Runs.

(** Listings, hosts and handles for the other methods. *)

Module Cases.

Definition listed : world :=
  Demo.world_of ∅ Demo.no_fault
    ([Page (Some ["2024/"; "2023/"])
        (Some ["2024/jan.csv"; "2024/jan.parquet"; "2023/jan.csv"; "2024/csv_notes.txt"; "2024/"]);
      Page (Some ["2024/"]) (Some ["2025/jan.csv"])], None)
    Demo.no_reply.

Definition empty_bucket : world :=
  Demo.world_of ∅ Demo.no_fault ([Page None None], None) Demo.no_reply.

Definition no_client : S3.S3ConnectionMR :=
  {| S3.bucket := "risk"; S3.s3_client := None; S3.base_path := None |}.


Definition risk : engine :=
  SparkSession {| appName := "risk"; applicationId := "app-0002" |}.

Definition tmp : Cache.host :=
  Cache.Host "/tmp"
    [("risk_report_ab12.parquet", Cache.File Runs.parquet_bytes);
     ("notes.txt", Cache.File []);
     ("risk_17.csv", Cache.File []);
     ("other_app_9.csv", Cache.File [])]
    [].

Definition tmp_with_directory : Cache.host :=
  Cache.Host "/tmp"
    [("risk_17.csv", Cache.File []);
     ("risk_report", Cache.Directory);
     ("risk_report_ab12.parquet", Cache.File Runs.parquet_bytes)]
    [].

Definition users : Dynamo.DynamoDBConnection :=
  {| Dynamo.dynamodb := Some Dynamo.Boto3Resource;
     Dynamo.table := Some {| Dynamo.name := "users" |} |}.

Definition fresh : Dynamo.DynamoDBConnection :=
  {| Dynamo.dynamodb := Some Dynamo.Boto3Resource; Dynamo.table := None |}.


Definition throttled : world :=
  Demo.world_of ∅ Demo.no_fault ([], None)
    (fun _ => Raise (ClientError "ProvisionedThroughputExceededException")).

Definition offline : world :=
  Demo.world_of ∅ Demo.no_fault ([], None)
    (fun _ => Raise (OtherException "EndpointConnectionError")).


End Cases.

(** ** The definitions on concrete inputs *)

Example lower_ex : lower "Data.CSV" = "data.csv".
Proof. reflexivity. Qed.
Example split_ex : split "a.b.Csv" "." = ["a"; "b"; "Csv"].
Proof. reflexivity. Qed.
Example split_nodot_ex : last_item (split "csv" ".") = "csv".
Proof. reflexivity. Qed.
Example rstrip_ex : rstrip "a/b//" "/" = "a/b".
Proof. reflexivity. Qed.
Example splitext_ex1 : splitext "dir.d/report.CSV" = ("dir.d/report", ".CSV").
Proof. reflexivity. Qed.
Example splitext_ex2 : splitext "dir/.csv" = ("dir/.csv", "").
Proof. reflexivity. Qed.
Example splitext_ex3 : splitext "..a.parquet" = ("..a", ".parquet").
Proof. reflexivity. Qed.
Example splitext_ex4 : splitext "dir.d/report" = ("dir.d/report", "").
Proof. reflexivity. Qed.

Example scan_ex :
  fst (S3.scan Demo.conn "in" false
    (Demo.world_of ∅ Demo.no_fault
       ([Page (Some ["in/b/"; "in/a/"]) (Some ["in/"; "in/z.csv"]);
         Page None (Some ["in/m.parquet"; "in/A.csv"]);
         Page (Some ["in/a/"]) None], None) Demo.no_reply))
  = Ret (S3.Listing ["in/a/"; "in/b/"] ["in/A.csv"; "in/m.parquet"; "in/z.csv"]).
Proof. vm_compute. reflexivity. Qed.

Example read_csv_local_ex :
  fst (S3.read_from_s3_default (H := Demo.TextFrames) Demo.conn "data/loans.csv" EngineNone
         Runs.store)
  = Ret (Some (S3.LocalTable (H := Demo.TextFrames) Runs.sample)).
Proof. vm_compute. reflexivity. Qed.

Example read_parquet_spark_ex :
  let tmp := TmpName "risk_report_" 0 ".parquet" in
  S3.read_from_s3 (H := Demo.TextFrames) Demo.conn "data/loans.parquet" Runs.session
    (ReadCsvKwargs "utf-8" (Some 5) None None None "," None) true MEMORY_AND_DISK Runs.store
  = (Ret (Some (S3.DistributedTable
                  (Persist MEMORY_AND_DISK (Limit 5 (ReadParquet tmp))))),
     emit (TempFile tmp Runs.parquet_bytes)
       (bump_tmp (emit (S3Call (GetObject "risk" "data/loans.parquet")) Runs.store))).
Proof. vm_compute. reflexivity. Qed.

Example read_csv_other_engine_ex :
  fst (S3.read_from_s3_default (H := Demo.TextFrames) Demo.conn "data/loans.csv"
         (OtherObject None) Runs.store)
  = Raise (ValueError S3.invalid_engine_message).
Proof. vm_compute. reflexivity. Qed.

Example s3_load_file_ex :
  fst (S3.s3_load_file Demo.conn "raw.bin" Runs.store) = Ret (Some Runs.parquet_bytes).
Proof. vm_compute. reflexivity. Qed.

Example s3_find_csv_ex :
  fst (S3Rest.s3_find_csv Demo.conn (Some "2024/") (Some "csv") Cases.listed)
  = Ret ["2024/jan.csv"; "2024/csv_notes.txt"].
Proof. vm_compute. reflexivity. Qed.

Example clear_cache_ex :
  Cache.clear_cache Cases.risk Cases.tmp
  = (Ret tt,
     Cache.Host "/tmp"
       [("notes.txt", Cache.File []); ("other_app_9.csv", Cache.File [])]
       [[Lit "Eliminado: "; Val "/tmp/risk_17.csv"];
        [Lit "Eliminado: "; Val "/tmp/risk_report_ab12.parquet"]]).
Proof. vm_compute. reflexivity. Qed.

Example s3_upload_df_ex :
  let w := snd (S3Rest.s3_upload_df (H := Demo.TextFrames) Demo.conn Runs.sample
                  "out/loans.parquet" Runs.empty_store) in
  s3_objects w !! ("risk", "out/loans.parquet") = Some (Demo.encode_utf8 Runs.sample).
Proof. vm_compute. reflexivity. Qed.

(** ** Running the monad inside proofs *)

Ltac run_calls :=
  unfold mbind, mret, M_bind, M_ret, bind, ret, raise, try_except, S3.lift,
    logging, warnings_warn, tell, Dynamo.no_table_connected, any_exception in *;
  cbn -[lower split splitext last_item String.append] in *.

(** A closed negative fact, settled by running its decision procedure. *)
Ltac decide_false :=
  match goal with
  | |- ¬ ?P => apply (@bool_decide_eq_false_1 P _); vm_compute; reflexivity
  end.

(** ** Properties of [scan] *)

Section scan_facts.

Lemma scan_page_files recursive result p k :
  k ∈ S3.acc_files (S3.scan_page recursive result p) →
  k ∈ S3.acc_files result ∨ (k ∈ default [] (Contents p) ∧ endswith k "/" = false).
Proof.
  unfold S3.scan_page.
  assert (Hsame : S3.acc_files
            (if negb recursive
             then S3.ScanResult
                    (foldl (fun s cp => s ∪ {[cp]}) (S3.acc_folders result)
                       (default [] (CommonPrefixes p)))
                    (S3.acc_files result)
             else result) = S3.acc_files result)
    by (destruct recursive; reflexivity).
  cbn [S3.acc_files]. rewrite Hsame.
  generalize (S3.acc_files result) as fs.
  induction (default [] (Contents p)) as [|key keys IH]; intros fs Hk; cbn in Hk.
  - by left.
  - apply IH in Hk as [Hk | [Hk Hend]].
    + destruct (endswith key "/") eqn:Hkey.
      * by left.
      * apply elem_of_app in Hk as [Hk | Hk]; [by left|].
        apply list_elem_of_singleton in Hk as ->.
        right. split; [constructor | done].
    + right. split; [by constructor | done].
Qed.

Lemma scan_pages_files recursive pages result k :
  k ∈ S3.acc_files (foldl (S3.scan_page recursive) result pages) →
  k ∈ S3.acc_files result ∨ endswith k "/" = false.
Proof.
  revert result. induction pages as [|p pages IH]; intros result Hk; cbn in Hk.
  - by left.
  - apply IH in Hk as [Hk | Hk]; [|by right].
    apply scan_page_files in Hk as [Hk | [_ Hk]]; [by left | by right].
Qed.

Lemma sorted_elem k l : k ∈ S3.sorted l ↔ k ∈ l.
Proof. unfold S3.sorted. by rewrite merge_sort_Permutation. Qed.

Lemma sorted_ascending l : StronglySorted String.le (S3.sorted l).
Proof. apply StronglySorted_merge_sort; apply _. Qed.

End scan_facts.

(** C5: for every path (and every state of the store, every listing the
    service produces, with or without a client), [scan] returns a result
    (it does not raise); its file list holds no key that ends in the folder
    delimiter ['/'], and its folder list and its file list are both in
    ascending lexicographic order.  This holds for [recursive=False] and
    for [recursive=True] alike. *)
Theorem scan_files_exclude_folders_and_sorted
    (self : S3.S3ConnectionMR) (path : string) (recursive : bool) (w : world) :
  ∃ r : S3.listing,
    fst (S3.scan self path recursive w) = Ret r
    ∧ (∀ k, k ∈ S3.files r → endswith k "/" = false)
    ∧ StronglySorted String.le (S3.folders r)
    ∧ StronglySorted String.le (S3.files r).
Proof.
  unfold S3.scan, S3.client_attr, S3.paginate.
  destruct (S3.s3_client self) as [c|]; run_calls.
  - match goal with |- context [s3_pages w ?b ?p ?d] =>
      destruct (s3_pages w b p d) as [pages [e|]] end; cbn.
    + eexists. split; [reflexivity|]. cbn.
      split; [intros k Hk; by apply elem_of_nil in Hk|]. split; constructor.
    + eexists. split; [reflexivity|]. cbn.
      split; [|split; apply sorted_ascending].
      intros k Hk. rewrite sorted_elem in Hk.
      apply scan_pages_files in Hk as [Hk | Hk]; [|done].
      cbn in Hk. by apply elem_of_nil in Hk.
  - eexists. split; [reflexivity|]. cbn.
    split; [intros k Hk; by apply elem_of_nil in Hk|]. split; constructor.
Qed.

(** ** The key-value client *)

(** C7: on a Disconnected handle ([table] is [None]) each of the six item
    operations logs the error "No table connected." and returns [None]
    ([put_item], [get_item], [update_item], [delete_item]) or the empty list
    ([scan_table], [query_table]); none raises; the world afterwards is the
    world before with that one log record added, so no request reached the
    table. *)
Theorem disconnected_operations_log_and_return_empty
    (self : Dynamo.DynamoDBConnection) (w : world)
    (i key expression_values : item) (update_expression partition_key : string)
    (filter_expression : option string) (scan_values : option item)
    (limit : option Z) (partition_value : attr) :
  Dynamo.table self = None →
  let logged := emit (Log ERROR [Lit "No table connected."]) w in
  Dynamo.put_item self i w = (Ret None, logged)
  ∧ Dynamo.get_item self key w = (Ret None, logged)
  ∧ Dynamo.update_item self key update_expression expression_values w = (Ret None, logged)
  ∧ Dynamo.delete_item self key w = (Ret None, logged)
  ∧ Dynamo.scan_table self filter_expression scan_values limit w = (Ret [], logged)
  ∧ Dynamo.query_table self partition_key partition_value w = (Ret [], logged)
  ∧ ∀ r, TableCall r ∈ trace logged → TableCall r ∈ trace w.
Proof.
  intros Hnone logged.
  unfold Dynamo.put_item, Dynamo.get_item, Dynamo.update_item, Dynamo.delete_item,
    Dynamo.scan_table, Dynamo.query_table.
  rewrite Hnone. repeat split.
  intros r Hin. subst logged. cbn in Hin.
  apply elem_of_cons in Hin as [Heq | Hin]; [discriminate | done].
Qed.

Lemma disconnected_operations_witness :
  let self := {| Dynamo.dynamodb := None; Dynamo.table := None |} in
  let w := Demo.world_of ∅ Demo.no_fault ([], None) Demo.no_reply in
  Dynamo.get_item self {[ "id" := AttrS "u1" ]} w
    = (Ret None, emit (Log ERROR [Lit "No table connected."]) w)
  ∧ Dynamo.scan_table self None None (Some 10) w
    = (Ret [], emit (Log ERROR [Lit "No table connected."]) w).
Proof.
  intros self w.
  destruct (disconnected_operations_log_and_return_empty self w
              ∅ {[ "id" := AttrS "u1" ]} ∅ "" "" None None (Some 10) (AttrS "")
              eq_refl) as (_ & Hget & _ & _ & Hscan & _).
  split; [exact Hget | exact Hscan].
Defined.

(** [get_item] on a connected handle, by what the service answers. *)
Lemma get_item_connected (self : Dynamo.DynamoDBConnection) (t : Dynamo.Table)
    (key : item) (w : world) :
  Dynamo.table self = Some t →
  let w1 := emit (TableCall (GetItem (Dynamo.name t) key)) w in
  Dynamo.get_item self key w =
    match table_reply w (GetItem (Dynamo.name t) key) with
    | Ret response =>
        match Item response with
        | Some i =>
            (Ret (Some i),
             emit (Log INFO [Lit "Item retrieved from "; Val (Dynamo.name t); Lit ": "; ValObj]) w1)
        | None =>
            (Ret None,
             emit (Log WARNING [Lit "Item not found in "; Val (Dynamo.name t);
                                Lit " for key: "; ValObj]) w1)
        end
    | Raise e =>
        if is_ClientError e
        then (Ret None,
              emit (Log ERROR [Lit "Error retrieving item from table "; Val (Dynamo.name t);
                               Lit ": "; ValExn e]) w1)
        else (Raise e, w1)
    end.
Proof.
  intros Ht w1. unfold Dynamo.get_item, Dynamo.table_call. rewrite Ht. run_calls.
  destruct (table_reply w (GetItem (Dynamo.name t) key)) as [response | e]; cbn.
  - destruct (Item response); reflexivity.
  - destruct (is_ClientError e); reflexivity.
Qed.

(** C3, as stated, fails: with the table connected, a key that has no item
    and a fetch that the service rejects give the caller the very same
    outcome, the value [None]. *)
Lemma get_item_not_found_equals_service_error :
  let self := {| Dynamo.dynamodb := Some Dynamo.Boto3Resource;
                 Dynamo.table := Some {| Dynamo.name := "users" |} |} in
  let key : item := {[ "id" := AttrS "u1" ]} in
  let absent := Demo.world_of ∅ Demo.no_fault ([], None)
                  (fun _ => Ret (TableResponse None None None)) in
  let failing := Demo.world_of ∅ Demo.no_fault ([], None)
                   (fun _ => Raise (ClientError "ProvisionedThroughputExceededException")) in
  fst (Dynamo.get_item self key absent) = Ret None
  ∧ fst (Dynamo.get_item self key failing) = Ret None
  ∧ fst (Dynamo.get_item self key absent) = fst (Dynamo.get_item self key failing).
Proof. vm_compute. repeat split. Qed.

(** C3, amended: on a connected handle, [get_item] on a key that has no
    item returns [None] after logging a warning, and a fetch that fails with
    a service error ([ClientError]) returns [None] as well, after logging an
    error: the caller receives the same value in both cases, and the two
    outcomes differ in the log record only. *)
Theorem get_item_not_found_and_service_error_both_none
    (self : Dynamo.DynamoDBConnection) (t : Dynamo.Table) (key : item)
    (absent failing : world) (response : table_response) (code : string) :
  Dynamo.table self = Some t →
  table_reply absent (GetItem (Dynamo.name t) key) = Ret response →
  Item response = None →
  table_reply failing (GetItem (Dynamo.name t) key) = Raise (ClientError code) →
  fst (Dynamo.get_item self key absent) = Ret None
  ∧ fst (Dynamo.get_item self key failing) = Ret None
  ∧ trace (snd (Dynamo.get_item self key absent)) =
      Log WARNING [Lit "Item not found in "; Val (Dynamo.name t); Lit " for key: "; ValObj]
      :: TableCall (GetItem (Dynamo.name t) key) :: trace absent
  ∧ trace (snd (Dynamo.get_item self key failing)) =
      Log ERROR [Lit "Error retrieving item from table "; Val (Dynamo.name t); Lit ": ";
                 ValExn (ClientError code)]
      :: TableCall (GetItem (Dynamo.name t) key) :: trace failing.
Proof.
  intros Ht Habsent Hitem Hfail.
  rewrite !(get_item_connected self t key) by done.
  rewrite Habsent, Hitem, Hfail. cbn. done.
Qed.

Lemma get_item_not_found_and_service_error_witness :
  let self := {| Dynamo.dynamodb := Some Dynamo.Boto3Resource;
                 Dynamo.table := Some {| Dynamo.name := "users" |} |} in
  let key : item := {[ "id" := AttrS "u1" ]} in
  let absent := Demo.world_of ∅ Demo.no_fault ([], None)
                  (fun _ => Ret (TableResponse None None None)) in
  let failing := Demo.world_of ∅ Demo.no_fault ([], None)
                   (fun _ => Raise (ClientError "ProvisionedThroughputExceededException")) in
  fst (Dynamo.get_item self key absent) = Ret None
  ∧ fst (Dynamo.get_item self key failing) = Ret None.
Proof.
  intros self key absent failing.
  destruct (get_item_not_found_and_service_error_both_none self
              {| Dynamo.name := "users" |} key absent failing
              (TableResponse None None None) "ProvisionedThroughputExceededException"
              eq_refl eq_refl eq_refl eq_refl) as (Ha & Hf & _).
  split; [exact Ha | exact Hf].
Defined.

(** ** Keys and their extensions: [split(".")[-1]] and [os.path.splitext] *)

Section extensions.

Lemma chars_str (l : list ascii) : chars (str l) = l.
Proof. apply list_ascii_of_string_of_list_ascii. Qed.

Lemma str_chars (s : string) : str (chars s) = s.
Proof. apply string_of_list_ascii_of_string. Qed.

Lemma lower_cons (x : ascii) (l : list ascii) :
  lower (str (x :: l)) = String (lower_char x) (lower (str l)).
Proof. unfold lower. by rewrite !chars_str. Qed.

(** The loop of [splitext] either finds no extension or cuts at the dot. *)
Lemma splitext_loop_ext (p : list ascii) (filenameIndex dotIndex : Z) (fuel : nat) :
  snd (splitext_loop p filenameIndex dotIndex fuel) = []
  ∨ snd (splitext_loop p filenameIndex dotIndex fuel) = slice_from p dotIndex.
Proof.
  revert filenameIndex. induction fuel as [|fuel IH]; intros filenameIndex; cbn; [by left|].
  destruct (filenameIndex <? dotIndex); [|by left].
  destruct (p !! Z.to_nat filenameIndex) as [c|]; [|by right].
  destruct (bool_decide (c = "."%char)); [apply IH | by right].
Qed.

(** [rfind] against [split]: without the separator the split is the string
    itself; with it, the last piece is what follows its last occurrence. *)
Lemma rfind_from_split (c : ascii) (l : list ascii) (i : Z) :
  0 ≤ i →
  (rfind_from c l i = -1 ∧ split_chars c l = [l])
  ∨ (i ≤ rfind_from c l i
     ∧ (Z.to_nat (rfind_from c l i - i) < length l)%nat
     ∧ ∃ front, front ≠ []
         ∧ split_chars c l = (front ++ [drop (S (Z.to_nat (rfind_from c l i - i))) l])%list).
Proof.
  revert i. induction l as [|x r IH]; intros i Hi; cbn [rfind_from split_chars]; [by left|].
  destruct (IH (i + 1)) as [[Hj Hsplit] | (Hj & Hlen & front & Hfront & Hsplit)]; [lia|..].
  - rewrite Hj. cbn [Z.leb Z.compare]. rewrite Hsplit.
    destruct (bool_decide (x = c)); [right | by left].
    split; [lia|]. replace (i - i) with 0 by lia. split; [cbn; lia|].
    exists [[]]. by split.
  - right. rewrite (proj2 (Z.leb_le 0 _)) by lia.
    replace (Z.to_nat (rfind_from c r (i + 1) - i))
      with (S (Z.to_nat (rfind_from c r (i + 1) - (i + 1)))) by lia.
    split; [lia|]. split; [cbn; lia|]. rewrite Hsplit.
    destruct (bool_decide (x = c)).
    + exists ([] :: front). by split.
    + destruct front as [|h t]; [done|]. exists ((x :: h) :: t). by split.
Qed.

(** When [splitext] finds an extension, it is one character (the dot)
    followed by the last piece of the key split at the dots. *)
Lemma splitext_ext_split (key : string) :
  snd (splitext key) = ""
  ∨ ∃ x, snd (splitext key) = str (x :: chars (last_item (split key "."))).
Proof.
  unfold splitext, rfind.
  destruct (rfind_from_split "/" (chars key) 0) as [[Hsep _] | (Hsep & _)]; [lia|..];
    (destruct (rfind_from_split "." (chars key) 0)
       as [[Hdot _] | (Hdot & Hlen & front & Hfront & Hsplit)]; [lia|..]).
  1,3: rewrite Hdot;
       (destruct (rfind_from "/" (chars key) 0 <? -1) eqn:Hlt; [apply Z.ltb_lt in Hlt; lia|]);
       by left.
  all: destruct (rfind_from "/" (chars key) 0 <? rfind_from "." (chars key) 0); [|by left].
  all: pose proof (splitext_loop_ext (chars key) (rfind_from "/" (chars key) 0 + 1)
                     (rfind_from "." (chars key) 0)
                     (Z.to_nat (rfind_from "." (chars key) 0
                                - (rfind_from "/" (chars key) 0 + 1)))) as Hloop.
  all: destruct (splitext_loop (chars key) _ _ _) as [root ext]; cbn in Hloop |- *.
  all: destruct Hloop as [-> | ->]; [by left | right].
  all: unfold slice_from, last_item, split; rewrite Hsplit.
  all: rewrite Z.sub_0_r in *.
  all: rewrite fmap_app; cbn [fmap list_fmap]; rewrite last_snoc.
  all: apply lookup_lt_is_Some_2 in Hlen as [x Hx]; exists x.
  all: rewrite (drop_S _ x _ Hx); unfold default, id; by rewrite chars_str.
Qed.

Lemma splitext_lower_split (key : string) (dot : ascii) (ext : string) :
  lower (snd (splitext key)) = String dot ext →
  lower (last_item (split key ".")) = ext.
Proof.
  destruct (splitext_ext_split key) as [-> | [x ->]]; [done|].
  rewrite lower_cons, str_chars. congruence.
Qed.

End extensions.

(** ** The object-storage bridge *)

Section bridge.
Context `{Libs}.

(** What [get_object] does to the world: one request, whatever the answer. *)
Lemma get_object_world (Bucket Key : string) (w : world) :
  snd (S3.get_object Bucket Key w) = emit (S3Call (GetObject Bucket Key)) w.
Proof.
  unfold S3.get_object. destruct (s3_fault w _); [done|].
  by destruct (s3_objects w !! _).
Qed.

Lemma get_object_found (Bucket Key : string) (w : world) (content : bytes) :
  s3_fault w (GetObject Bucket Key) = None →
  s3_objects w !! (Bucket, Key) = Some content →
  S3.get_object Bucket Key w =
    (Ret (S3.get_object_response content), emit (S3Call (GetObject Bucket Key)) w).
Proof. intros Hf Ho. unfold S3.get_object. by rewrite Hf, Ho. Qed.

Lemma response_Body (content : bytes) :
  S3.get_object_response content !! "Body" = Some (S3.StreamingBody content).
Proof. unfold S3.get_object_response. by rewrite lookup_insert_eq. Qed.

Lemma response_body_lowercase (content : bytes) :
  S3.get_object_response content !! "body" = None.
Proof.
  unfold S3.get_object_response.
  rewrite lookup_insert_ne by done. by apply lookup_singleton_ne.
Qed.

(** [read_from_s3] starts with the request; the rest runs on its answer. *)
Lemma read_from_s3_fetch_fails (self : S3.S3ConnectionMR) (c : S3.client)
    (filename : string) (engine : engine) (kw : read_csv_kwargs) (header : bool)
    (persistence : StorageLevel) (w : world) (e : exn) :
  S3.s3_client self = Some c →
  fst (S3.get_object (S3.bucket self) filename w) = Raise e →
  S3.read_from_s3 self filename engine kw header persistence w =
    (Raise e, emit (S3Call (GetObject (S3.bucket self) filename)) w).
Proof.
  intros Hc Hfetch. unfold S3.read_from_s3, S3.client_attr. rewrite Hc. run_calls.
  pose proof (get_object_world (S3.bucket self) filename w) as Hw.
  destruct (S3.get_object (S3.bucket self) filename w) as [[response | e'] w'];
    cbn in *; [discriminate|]. congruence.
Qed.

Lemma read_from_s3_unsupported (self : S3.S3ConnectionMR) (c : S3.client)
    (filename : string) (engine : engine) (kw : read_csv_kwargs) (header : bool)
    (persistence : StorageLevel) (w : world) (response : S3.response) :
  S3.s3_client self = Some c →
  fst (S3.get_object (S3.bucket self) filename w) = Ret response →
  lower (last_item (split filename ".")) ∉ ["csv"; "parquet"] →
  S3.read_from_s3 self filename engine kw header persistence w =
    (Ret None,
     emit (Warn S3.unsupported_format_warning)
       (emit (S3Call (GetObject (S3.bucket self) filename)) w)).
Proof.
  intros Hc Hfetch Hext. unfold S3.read_from_s3, S3.client_attr. rewrite Hc. run_calls.
  pose proof (get_object_world (S3.bucket self) filename w) as Hw.
  destruct (S3.get_object (S3.bucket self) filename w) as [[response' | e'] w'];
    cbn in *; [|discriminate].
  rewrite bool_decide_eq_false_2 by done. cbn. by rewrite Hw.
Qed.

(** Whatever [read_from_s3] goes on to do, the request is the first thing
    it adds to the trace. *)
Lemma read_from_s3_trace (self : S3.S3ConnectionMR) (c : S3.client)
    (filename : string) (engine : engine) (kw : read_csv_kwargs) (header : bool)
    (persistence : StorageLevel) (w : world) :
  S3.s3_client self = Some c →
  ∃ later,
    trace (snd (S3.read_from_s3 self filename engine kw header persistence w)) =
      (later ++ S3Call (GetObject (S3.bucket self) filename) :: trace w)%list.
Proof.
  intros Hc. unfold S3.read_from_s3, S3.client_attr. rewrite Hc. run_calls.
  pose proof (get_object_world (S3.bucket self) filename w) as Hw.
  destruct (S3.get_object (S3.bucket self) filename w) as [[response | e] w'];
    cbn in Hw; subst w'; [|by exists []].
  destruct (bool_decide (lower (last_item (split filename ".")) ∈ ["csv"; "parquet"]));
    cbn -[lower split last_item]; [|by eexists [_]].
  unfold S3.getitem, S3.read, S3.NamedTemporaryFile, sparkContext.
  destruct (bool_decide (lower (last_item (split filename ".")) = "csv")).
  - destruct engine as [|sc|[sc|]]; run_calls; try by exists [].
    + destruct (response !! "Body") as [[content| |]|]; run_calls; try by exists [].
      destruct (bytes_decode (kw_encoding kw) content); cbn; [|by exists []].
      destruct (read_csv _ kw); by exists [].
    + destruct (response !! "Body") as [[content| |]|]; run_calls; try by exists [].
      by eexists [_].
  - destruct (bool_decide (lower (last_item (split filename ".")) = "parquet"));
      [|by exists []].
    destruct engine as [|sc|[sc|]]; run_calls; try by exists [].
    + destruct (response !! "Body") as [[content| |]|]; run_calls; try by exists [].
      by eexists [_].
    + destruct (response !! "Body") as [[content| |]|]; run_calls; try by exists [].
      by eexists [_].
Qed.

(** C9: [read_from_s3] sends the get-object request before it looks at the
    extension.  With a client, for every key, engine and options: the
    request is the first event of the call; when the request fails, its
    exception is what the call raises, whatever the extension; and for an
    extension that is neither csv nor parquet a successful request has been
    made although the call returns [None]. *)
Theorem read_from_s3_fetches_before_validating (self : S3.S3ConnectionMR) (c : S3.client)
    (filename : string) (engine : engine) (kw : read_csv_kwargs) (header : bool)
    (persistence : StorageLevel) (w : world) :
  S3.s3_client self = Some c →
  let fetch := S3.get_object (S3.bucket self) filename w in
  let fetched := emit (S3Call (GetObject (S3.bucket self) filename)) w in
  let call := S3.read_from_s3 self filename engine kw header persistence w in
  (∃ later, trace (snd call) = (later ++ trace fetched)%list)
  ∧ (∀ e, fst fetch = Raise e → call = (Raise e, fetched))
  ∧ (∀ response, fst fetch = Ret response →
       lower (last_item (split filename ".")) ∉ ["csv"; "parquet"] →
       call = (Ret None, emit (Warn S3.unsupported_format_warning) fetched)).
Proof.
  intros Hc fetch fetched call. split; [|split].
  - by apply (read_from_s3_trace self c).
  - intros e He. by apply (read_from_s3_fetch_fails self c).
  - intros response Hr Hext. by apply (read_from_s3_unsupported self c _ _ _ _ _ _ response).
Qed.

(** C2, amended: for every key whose extension (the text after the last
    dot, lowercased) is neither csv nor parquet and whose get-object request
    succeeds, [read_from_s3] returns [None], with the warning that the format
    is not supported, and raises nothing. *)
Theorem read_from_s3_unsupported_extension_returns_none
    (self : S3.S3ConnectionMR) (c : S3.client)
    (filename : string) (engine : engine) (kw : read_csv_kwargs) (header : bool)
    (persistence : StorageLevel) (w : world) (response : S3.response) :
  S3.s3_client self = Some c →
  lower (last_item (split filename ".")) ∉ ["csv"; "parquet"] →
  fst (S3.get_object (S3.bucket self) filename w) = Ret response →
  S3.read_from_s3 self filename engine kw header persistence w =
    (Ret None,
     emit (Warn S3.unsupported_format_warning)
       (emit (S3Call (GetObject (S3.bucket self) filename)) w)).
Proof. intros Hc Hext Hfetch. by apply (read_from_s3_unsupported self c _ _ _ _ _ _ response). Qed.

(** C1 fails on the code: for a parquet key and [engine=None], with the
    object fetched, [read_from_s3] raises [AttributeError] at
    [engine.sparkContext], before any temporary file is written and before
    pandas is called. *)
Theorem read_from_s3_parquet_without_engine_raises
    (self : S3.S3ConnectionMR) (c : S3.client)
    (filename : string) (kw : read_csv_kwargs) (header : bool)
    (persistence : StorageLevel) (w : world) (response : S3.response) :
  S3.s3_client self = Some c →
  lower (last_item (split filename ".")) = "parquet" →
  fst (S3.get_object (S3.bucket self) filename w) = Ret response →
  S3.read_from_s3 self filename EngineNone kw header persistence w =
    (Raise (AttributeError "'NoneType' object has no attribute 'sparkContext'"),
     emit (S3Call (GetObject (S3.bucket self) filename)) w).
Proof.
  intros Hc Hext Hfetch. unfold S3.read_from_s3, S3.client_attr. rewrite Hc. run_calls.
  pose proof (get_object_world (S3.bucket self) filename w) as Hw.
  destruct (S3.get_object (S3.bucket self) filename w) as [[response' | e'] w'];
    cbn in *; [|discriminate].
  rewrite Hext. cbn. by rewrite Hw.
Qed.

(** C4 fails on the code: for every key whose object is fetched,
    [load_from_s3] returns [None], not the bytes of the object: it looks up
    ["body"] in a response whose entry is ["Body"]. *)
Theorem load_from_s3_returns_none (self : S3.S3ConnectionMR) (c : S3.client)
    (filename : string) (w : world) (content : bytes) :
  S3.s3_client self = Some c →
  s3_fault w (GetObject (S3.bucket self) filename) = None →
  s3_objects w !! (S3.bucket self, filename) = Some content →
  S3.load_from_s3 self filename w =
    (Ret None, emit (S3Call (GetObject (S3.bucket self) filename)) w).
Proof.
  intros Hc Hf Ho. unfold S3.load_from_s3, S3.client_attr. rewrite Hc. run_calls.
  rewrite (get_object_found _ _ _ content) by done.
  by rewrite response_body_lowercase.
Qed.

(** C8: for every table and every key whose extension (as
    [os.path.splitext] gives it, lowercased) is neither [.csv] nor
    [.parquet], [df_to_s3] raises the [ValueError] of its precondition and
    leaves the world as it was: no put-object request, no other request, no
    log record. *)
Theorem df_to_s3_rejects_other_extensions (self : S3.S3ConnectionMR)
    (df : DataFrame) (key : string) (index : bool) (w : world) :
  lower (snd (splitext key)) ≠ ".csv" →
  lower (snd (splitext key)) ≠ ".parquet" →
  S3.df_to_s3 self (Some df) (Some key) index w =
    (Raise (ValueError "Unsupported file extension. Use a key ending in '.csv' or '.parquet'."),
     w).
Proof.
  intros Hcsv Hparquet. unfold S3.df_to_s3. run_calls.
  rewrite (bool_decide_eq_false_2 _ Hcsv), (bool_decide_eq_false_2 _ Hparquet).
  reflexivity.
Qed.



(** [read_from_s3] on a csv key with [engine=None], the object fetched. *)
Lemma read_from_s3_csv_local (self : S3.S3ConnectionMR) (c : S3.client)
    (filename : string) (kw : read_csv_kwargs) (header : bool)
    (persistence : StorageLevel) (w : world) (content : bytes) :
  S3.s3_client self = Some c →
  lower (last_item (split filename ".")) = "csv" →
  s3_fault w (GetObject (S3.bucket self) filename) = None →
  s3_objects w !! (S3.bucket self, filename) = Some content →
  fst (S3.read_from_s3 self filename EngineNone kw header persistence w) =
    match bytes_decode (kw_encoding kw) content with
    | Ret text =>
        match read_csv text kw with
        | Ret df => Ret (Some (S3.LocalTable df))
        | Raise e => Raise e
        end
    | Raise e => Raise e
    end.
Proof.
  intros Hc Hext Hfault Hobj.
  unfold S3.read_from_s3, S3.client_attr, S3.getitem, S3.read. rewrite Hc. run_calls.
  rewrite (get_object_found _ _ _ content) by done.
  rewrite Hext. cbn. rewrite response_Body. cbn.
  destruct (bytes_decode (kw_encoding kw) content) as [text | e]; cbn; [|done].
  by destruct (read_csv text kw).
Qed.


End bridge.

(** ** The bridge on concrete stores *)

(** C1, at a concrete store: the parquet object exists, the engine is
    [None], and the call raises [AttributeError]. *)
Lemma read_from_s3_parquet_without_engine_witness :
  S3.read_from_s3 (H := Demo.TextFrames) Demo.conn "data/loans.parquet" EngineNone
    S3.default_kwargs true DISK_ONLY Runs.store =
  (Raise (AttributeError "'NoneType' object has no attribute 'sparkContext'"),
   emit (S3Call (GetObject "risk" "data/loans.parquet")) Runs.store).
Proof.
  apply (@read_from_s3_parquet_without_engine_raises Demo.TextFrames Demo.conn
           S3.Boto3Client "data/loans.parquet" S3.default_kwargs true DISK_ONLY Runs.store
           (S3.get_object_response Runs.parquet_bytes)).
  - reflexivity.
  - vm_compute. reflexivity.
  - vm_compute. reflexivity.
Defined.

(** C2, as stated, fails: the key [notes.txt] has an extension that is
    neither csv nor parquet, the store has no such object, and the call
    raises the [ClientError] of the request instead of returning [None]. *)
Lemma read_from_s3_unsupported_extension_raises :
  lower (last_item (split "notes.txt" ".")) = "txt"
  ∧ S3.read_from_s3 (H := Demo.TextFrames) Demo.conn "notes.txt" EngineNone
      S3.default_kwargs true DISK_ONLY Runs.empty_store =
    (Raise (ClientError "NoSuchKey"),
     emit (S3Call (GetObject "risk" "notes.txt")) Runs.empty_store).
Proof. split; vm_compute; reflexivity. Qed.

Lemma read_from_s3_unsupported_extension_witness :
  S3.read_from_s3 (H := Demo.TextFrames) Demo.conn "notes.txt" EngineNone
    S3.default_kwargs true DISK_ONLY Runs.store =
  (Ret None,
   emit (Warn S3.unsupported_format_warning)
     (emit (S3Call (GetObject "risk" "notes.txt")) Runs.store)).
Proof.
  apply (@read_from_s3_unsupported_extension_returns_none Demo.TextFrames Demo.conn
           S3.Boto3Client "notes.txt" EngineNone S3.default_kwargs true DISK_ONLY Runs.store
           (S3.get_object_response (Demo.encode_utf8 "hello"))).
  - reflexivity.
  - decide_false.
  - vm_compute. reflexivity.
Defined.

(** C4, at a concrete store: the object [raw.bin] holds four bytes and
    [load_from_s3] returns [None]. *)
Lemma load_from_s3_returns_none_witness :
  s3_objects Runs.store !! ("risk", "raw.bin") = Some Runs.parquet_bytes
  ∧ S3.load_from_s3 Demo.conn "raw.bin" Runs.store =
    (Ret None, emit (S3Call (GetObject "risk" "raw.bin")) Runs.store).
Proof.
  split; [vm_compute; reflexivity|].
  apply (load_from_s3_returns_none Demo.conn S3.Boto3Client "raw.bin" Runs.store
           Runs.parquet_bytes).
  - reflexivity.
  - reflexivity.
  - vm_compute. reflexivity.
Defined.



Lemma df_to_s3_rejects_other_extensions_witness :
  S3.df_to_s3 (H := Demo.TextFrames) Demo.conn (Some Runs.sample) (Some "out/report.xlsx")
    false Runs.store =
  (Raise (ValueError "Unsupported file extension. Use a key ending in '.csv' or '.parquet'."),
   Runs.store).
Proof.
  apply (@df_to_s3_rejects_other_extensions Demo.TextFrames Demo.conn Runs.sample
           "out/report.xlsx" false Runs.store).
  - decide_false.
  - decide_false.
Defined.

Lemma read_from_s3_fetches_before_validating_witness :
  S3.read_from_s3 (H := Demo.TextFrames) Demo.conn "data/loans.csv" EngineNone
    S3.default_kwargs true DISK_ONLY Runs.unreachable_store =
  (Raise (ClientError "AccessDenied"),
   emit (S3Call (GetObject "risk" "data/loans.csv")) Runs.unreachable_store)
  ∧ S3.read_from_s3 (H := Demo.TextFrames) Demo.conn "notes.txt" EngineNone
      S3.default_kwargs true DISK_ONLY Runs.store =
    (Ret None,
     emit (Warn S3.unsupported_format_warning)
       (emit (S3Call (GetObject "risk" "notes.txt")) Runs.store)).
Proof.
  split.
  - destruct (@read_from_s3_fetches_before_validating Demo.TextFrames Demo.conn
                S3.Boto3Client "data/loans.csv" EngineNone S3.default_kwargs true DISK_ONLY
                Runs.unreachable_store eq_refl) as (_ & Hfail & _).
    apply Hfail. vm_compute. reflexivity.
  - destruct (@read_from_s3_fetches_before_validating Demo.TextFrames Demo.conn
                S3.Boto3Client "notes.txt" EngineNone S3.default_kwargs true DISK_ONLY
                Runs.store eq_refl) as (_ & _ & Hnone).
    apply (Hnone (S3.get_object_response (Demo.encode_utf8 "hello"))).
    + vm_compute. reflexivity.
    + decide_false.
Defined.



(** * Beyond the claims: the rest of the file *)

(** ** More about [scan] *)

Section scan_more.

Lemma scan_page_recursive_folders (result : S3.scan_result) (p : page) :
  S3.acc_folders (S3.scan_page true result p) = S3.acc_folders result.
Proof. reflexivity. Qed.

Lemma scan_pages_recursive_folders (pages : list page) (result : S3.scan_result) :
  S3.acc_folders (foldl (S3.scan_page true) result pages) = S3.acc_folders result.
Proof.
  revert result. induction pages as [|p pages IH]; intros result; cbn; [done|].
  by rewrite IH.
Qed.

Lemma keep_files_foldl (keys fs : list string) :
  foldl (fun fs key => if endswith key "/" then fs else (fs ++ [key])%list) fs keys
  = (fs ++ filter (fun k => endswith k "/" = false) keys)%list.
Proof.
  revert fs. induction keys as [|key keys IH]; intros fs; cbn [foldl].
  - by rewrite app_nil_r.
  - rewrite IH, filter_cons. destruct (endswith key "/") eqn:Hkey.
    + by rewrite decide_False by done.
    + rewrite decide_True by done. by rewrite <- app_assoc.
Qed.

Lemma add_folders_foldl (prefixes : list string) (s : gset string) :
  foldl (fun s cp => s ∪ {[cp]}) s prefixes = s ∪ list_to_set prefixes.
Proof.
  revert s. induction prefixes as [|cp prefixes IH]; intros s; cbn.
  - by rewrite (right_id_L ∅ (∪)).
  - by rewrite IH, <- (assoc_L (∪)).
Qed.

(** The keys and the prefixes of a sequence of pages, in order. *)
Lemma scan_pages_files_exact (recursive : bool) (pages : list page) (result : S3.scan_result) :
  S3.acc_files (foldl (S3.scan_page recursive) result pages)
  = (S3.acc_files result
     ++ filter (fun k => endswith k "/" = false)
          (mjoin ((fun p => default [] (Contents p)) <$> pages)))%list.
Proof.
  revert result. induction pages as [|p pages IH]; intros result; cbn.
  - by rewrite app_nil_r.
  - rewrite IH. unfold S3.scan_page. cbn [S3.acc_files].
    rewrite keep_files_foldl, filter_app, <- app_assoc.
    by destruct recursive.
Qed.

Lemma scan_pages_folders_exact (pages : list page) (result : S3.scan_result) :
  S3.acc_folders (foldl (S3.scan_page false) result pages)
  = S3.acc_folders result
    ∪ list_to_set (mjoin ((fun p => default [] (CommonPrefixes p)) <$> pages)).
Proof.
  revert result. induction pages as [|p pages IH]; intros result; cbn.
  - by rewrite (right_id_L ∅ (∪)).
  - rewrite IH. unfold S3.scan_page. cbn [S3.acc_folders negb].
    by rewrite add_folders_foldl, list_to_set_app_L, (assoc_L (∪)).
Qed.

End scan_more.

Section scan_requests.

Lemma chars_append (a b : string) : chars (a +:+ b) = (chars a ++ chars b)%list.
Proof.
  induction a as [|c a IH]; [done|].
  change (c :: chars (a +:+ b) = c :: (chars a ++ chars b)%list). by rewrite IH.
Qed.

Lemma endswith_last (s : string) (c : ascii) :
  endswith s c = true ↔ last (chars s) = Some c.
Proof.
  unfold endswith. destruct (last (chars s)) as [d|]; [|done].
  rewrite bool_decide_eq_true. split; congruence.
Qed.

Lemma rstrip_chars_id (c : ascii) (l : list ascii) :
  last l ≠ Some c → rstrip_chars c l = l.
Proof.
  induction l as [|x r IH]; [done|]. intros Hlast. cbn [rstrip_chars].
  destruct r as [|y r'].
  - cbn in *. rewrite bool_decide_eq_false_2; [done | congruence].
  - rewrite IH by done. done.
Qed.

Lemma scan_prefix_adds_slash (path : string) :
  path ≠ "" → endswith path "/" = false →
  S3Rest.scan_prefix path = path +:+ "/".
Proof.
  intros Hne Hend. unfold S3Rest.scan_prefix, S3.truthy, rstrip.
  rewrite (bool_decide_eq_false_2 _ Hne), Hend. cbn [negb andb].
  rewrite rstrip_chars_id, str_chars; [done|].
  intros Hlast. apply endswith_last in Hlast. congruence.
Qed.

Lemma scan_prefix_keeps_slash (path : string) :
  S3Rest.scan_prefix (path +:+ "/") = path +:+ "/".
Proof.
  unfold S3Rest.scan_prefix.
  assert (endswith (path +:+ "/") "/" = true) as ->; [|by rewrite andb_false_r].
  apply endswith_last. rewrite chars_append. apply last_snoc.
Qed.

(** [scan], by the answer of the paginator. *)
Lemma scan_by_listing (self : S3.S3ConnectionMR) (path : string) (recursive : bool)
    (w : world) :
  fst (S3.scan self path recursive w) =
    match S3.s3_client self with
    | None => Ret (S3.Listing [] [])
    | Some _ =>
        match s3_pages w (S3.bucket self) (S3Rest.scan_prefix path)
                (S3Rest.scan_delimiter recursive) with
        | (pages, None) =>
            let result := foldl (S3.scan_page recursive) (S3.ScanResult ∅ []) pages in
            Ret (S3.Listing (S3.sorted (elements (S3.acc_folders result)))
                   (S3.sorted (S3.acc_files result)))
        | (_, Some _) => Ret (S3.Listing [] [])
        end
    end.
Proof.
  unfold S3.scan, S3.client_attr, S3.paginate, S3Rest.scan_prefix, S3Rest.scan_delimiter.
  destruct (S3.s3_client self) as [c|]; run_calls; [|done].
  match goal with |- context [s3_pages w ?b ?p ?d] =>
    destruct (s3_pages w b p d) as [pages [e|]] end; done.
Qed.

End scan_requests.

(** X1: with [recursive=True], [scan] reports no folders at all: for every
    path and every listing its folder list is empty (the common prefixes of
    the pages are not read). *)
Theorem scan_recursive_has_no_folders (self : S3.S3ConnectionMR) (path : string) (w : world) :
  ∃ r, fst (S3.scan self path true w) = Ret r ∧ S3.folders r = [].
Proof.
  rewrite scan_by_listing. destruct (S3.s3_client self); [|by eexists].
  destruct (s3_pages w _ _ _) as [pages [e|]]; [by eexists|].
  eexists. split; [done|]. cbn.
  rewrite scan_pages_recursive_folders. cbn. by rewrite elements_empty.
Qed.

(** X2: when the listing succeeds, the files [scan] returns are exactly the
    keys of all the pages that do not end in ['/'], each as often as it is
    listed; with [recursive=False] the folders are the common prefixes of
    all the pages, each once. *)
Theorem scan_lists_every_page (self : S3.S3ConnectionMR) (c : S3.client) (path : string)
    (recursive : bool) (w : world) (pages : list page) :
  S3.s3_client self = Some c →
  s3_pages w (S3.bucket self) (S3Rest.scan_prefix path) (S3Rest.scan_delimiter recursive)
    = (pages, None) →
  ∃ r, fst (S3.scan self path recursive w) = Ret r
    ∧ S3.files r ≡ₚ filter (fun k => endswith k "/" = false)
                      (mjoin ((fun p => default [] (Contents p)) <$> pages))
    ∧ NoDup (S3.folders r)
    ∧ ∀ f, f ∈ S3.folders r ↔
           recursive = false ∧ ∃ p, p ∈ pages ∧ f ∈ default [] (CommonPrefixes p).
Proof.
  intros Hc Hpages. rewrite scan_by_listing, Hc, Hpages.
  eexists. split; [done|]. cbn [S3.files S3.folders]. split; [|split].
  - unfold S3.sorted. rewrite merge_sort_Permutation.
    by rewrite scan_pages_files_exact.
  - unfold S3.sorted. rewrite merge_sort_Permutation. apply NoDup_elements.
  - intros f. rewrite sorted_elem, elem_of_elements. destruct recursive.
    + rewrite scan_pages_recursive_folders. cbn. split; [|by intros [? _]].
      intros Hf. by apply not_elem_of_empty in Hf.
    + rewrite scan_pages_folders_exact. cbn [S3.acc_folders].
      rewrite (left_id_L ∅ (∪)), elem_of_list_to_set, list_elem_of_join.
      split.
      * intros (l & Hf & Hl). apply list_elem_of_fmap in Hl as (p & -> & Hp). eauto.
      * intros (_ & p & Hp & Hf). exists (default [] (CommonPrefixes p)).
        split; [done|]. apply list_elem_of_fmap. eauto.
Qed.

Lemma scan_lists_every_page_witness :
  ∃ r, fst (S3.scan Demo.conn "" false Cases.listed) = Ret r
       ∧ S3.folders r = ["2023/"; "2024/"]
       ∧ length (S3.files r) = 5%nat.
Proof.
  destruct (scan_lists_every_page Demo.conn S3.Boto3Client "" false Cases.listed
              [Page (Some ["2024/"; "2023/"])
                 (Some ["2024/jan.csv"; "2024/jan.parquet"; "2023/jan.csv";
                        "2024/csv_notes.txt"; "2024/"]);
               Page (Some ["2024/"]) (Some ["2025/jan.csv"])]
              eq_refl eq_refl) as (r & Hr & Hfiles & _).
  exists r. split; [exact Hr|].
  vm_compute in Hr. injection Hr as <-. split; reflexivity.
Defined.

(** X3: a trailing slash on the path is optional: for a non-empty path that
    does not end in ['/'], [scan(path)] and [scan(path + "/")] send the same
    prefix, [path + "/"], and return the same result. *)
Theorem scan_trailing_slash_is_optional (self : S3.S3ConnectionMR) (path : string)
    (recursive : bool) (w : world) :
  path ≠ "" → endswith path "/" = false →
  S3Rest.scan_prefix path = path +:+ "/"
  ∧ S3Rest.scan_prefix (path +:+ "/") = path +:+ "/"
  ∧ fst (S3.scan self path recursive w) = fst (S3.scan self (path +:+ "/") recursive w).
Proof.
  intros Hne Hend. split; [by apply scan_prefix_adds_slash|].
  split; [apply scan_prefix_keeps_slash|].
  by rewrite !scan_by_listing, scan_prefix_adds_slash, scan_prefix_keeps_slash.
Qed.

Lemma scan_trailing_slash_witness :
  fst (S3.scan Demo.conn "data" false Cases.listed)
  = fst (S3.scan Demo.conn "data/" false Cases.listed).
Proof.
  destruct (scan_trailing_slash_is_optional Demo.conn "data" false Cases.listed)
    as (_ & _ & Hsame).
  - decide_false.
  - reflexivity.
  - exact Hsame.
Defined.

(** ** [s3_find_csv] *)

Section find.

Lemma is_prefix_spec (p s : list ascii) :
  S3Rest.is_prefix p s = true ↔ ∃ b, s = (p ++ b)%list.
Proof.
  revert s. induction p as [|a p IH]; intros s; cbn.
  - split; [intros _; by exists s | done].
  - destruct s as [|b s]; [split; [done | by intros [? ?]]|].
    rewrite andb_true_iff, bool_decide_eq_true, IH. split.
    + intros [-> [t ->]]. by exists t.
    + intros [t Ht]. injection Ht as -> ->. eauto.
Qed.

Lemma occurs_spec (sub s : list ascii) :
  S3Rest.occurs sub s = true ↔ ∃ a b, s = (a ++ sub ++ b)%list.
Proof.
  induction s as [|x s IH]; cbn [S3Rest.occurs]; rewrite orb_true_iff, is_prefix_spec.
  - split.
    + intros [[b Hb] | ?]; [by exists [], b | done].
    + intros (a & b & Hab). left. destruct a; [by exists b | done].
  - rewrite IH. split.
    + intros [[b Hb] | (a & b & ->)]; [by exists [], b | by exists (x :: a), b].
    + intros (a & b & Hab). destruct a as [|y a]; [left; by exists b|].
      right. injection Hab as -> ->. eauto.
Qed.

Lemma occurs_string (sub s : string) :
  S3Rest.occurs (chars sub) (chars s) = true ↔ ∃ a b, s = a +:+ sub +:+ b.
Proof.
  rewrite occurs_spec. split.
  - intros (a & b & Hs). exists (str a), (str b).
    rewrite <- (str_chars s), Hs, <- (str_chars (_ +:+ _)).
    by rewrite !chars_append, !chars_str.
  - intros (a & b & ->). exists (chars a), (chars b). by rewrite !chars_append.
Qed.

(** The comprehension, when both operands are strings: a filter. *)
Lemma find_keys_filter (path suffix : string) (keys : list string) :
  S3Rest.find_keys (Some path) (Some suffix) keys =
    Ret (filter (fun k => S3Rest.occurs (chars path) (chars k) = true
                          ∧ S3Rest.occurs (chars suffix) (chars k) = true) keys).
Proof.
  induction keys as [|k keys IH]; [done|]. cbn [S3Rest.find_keys S3Rest.py_in].
  rewrite IH, filter_cons.
  destruct (S3Rest.occurs (chars path) (chars k)) eqn:Hp.
  - destruct (S3Rest.occurs (chars suffix) (chars k)) eqn:Hs.
    + by rewrite decide_True.
    + rewrite decide_False; [done | by intros [_ ?]].
  - rewrite decide_False; [done | by intros [? _]].
Qed.

Lemma s3_find_csv_first_page (self : S3.S3ConnectionMR) (c : S3.client)
    (path suffix : option string) (w : world) (first : page) (more : list page)
    (failure : option exn) :
  S3.s3_client self = Some c →
  s3_pages w (S3.bucket self) "" "" = (first :: more, failure) →
  fst (S3Rest.s3_find_csv self path suffix w) =
    match Contents first with
    | None => Raise (KeyError "Contents")
    | Some keys => S3Rest.find_keys path suffix keys
    end.
Proof.
  intros Hc Hpages. unfold S3Rest.s3_find_csv, S3.client_attr, S3Rest.list_objects_v2.
  rewrite Hc. run_calls. rewrite Hpages. cbn.
  by destruct (Contents first).
Qed.

End find.

(** X4: [s3_find_csv] looks at the first page of the listing only, and keeps
    the keys of that page, in order, in which [path] occurs somewhere and
    [suffix] occurs somewhere: neither is anchored, so a key that merely
    contains the suffix text is kept. *)
Theorem s3_find_csv_selects_by_substring (self : S3.S3ConnectionMR) (c : S3.client)
    (path suffix : string) (w : world) (first : page) (more : list page)
    (failure : option exn) (keys : list string) :
  S3.s3_client self = Some c →
  s3_pages w (S3.bucket self) "" "" = (first :: more, failure) →
  Contents first = Some keys →
  ∃ found,
    fst (S3Rest.s3_find_csv self (Some path) (Some suffix) w) = Ret found
    ∧ sublist found keys
    ∧ ∀ k, k ∈ found ↔
           k ∈ keys ∧ (∃ a b, k = a +:+ path +:+ b) ∧ (∃ a b, k = a +:+ suffix +:+ b).
Proof.
  intros Hc Hpages Hkeys.
  rewrite (s3_find_csv_first_page self c _ _ w first more failure) by done.
  rewrite Hkeys, find_keys_filter. eexists. split; [done|]. split.
  - apply sublist_filter.
  - intros k. rewrite list_elem_of_filter, !occurs_string. tauto.
Qed.

Lemma s3_find_csv_selects_witness :
  fst (S3Rest.s3_find_csv Demo.conn (Some "2024/") (Some "csv") Cases.listed)
  = Ret ["2024/jan.csv"; "2024/csv_notes.txt"].
Proof.
  destruct (s3_find_csv_selects_by_substring Demo.conn S3.Boto3Client "2024/" "csv"
              Cases.listed
              (Page (Some ["2024/"; "2023/"])
                 (Some ["2024/jan.csv"; "2024/jan.parquet"; "2023/jan.csv";
                        "2024/csv_notes.txt"; "2024/"]))
              [Page (Some ["2024/"]) (Some ["2025/jan.csv"])] None
              ["2024/jan.csv"; "2024/jan.parquet"; "2023/jan.csv"; "2024/csv_notes.txt"; "2024/"]
              eq_refl eq_refl eq_refl) as (found & Hfound & _).
  pose proof Hfound as Heval. vm_compute in Heval. injection Heval as <-. exact Hfound.
Defined.

(** X5: [s3_find_csv] has no handler.  On a listing without [Contents] (an
    empty bucket) it raises [KeyError]; with [path] left at its default
    [None] it raises [TypeError] as soon as the page has a key, and returns
    the empty list only when the page has none. *)
Theorem s3_find_csv_raises (self : S3.S3ConnectionMR) (c : S3.client)
    (suffix : option string) (w : world) (first : page) (more : list page)
    (failure : option exn) :
  S3.s3_client self = Some c →
  s3_pages w (S3.bucket self) "" "" = (first :: more, failure) →
  (Contents first = None →
     ∀ path, fst (S3Rest.s3_find_csv self path suffix w) = Raise (KeyError "Contents"))
  ∧ (∀ key keys, Contents first = Some (key :: keys) →
       fst (S3Rest.s3_find_csv self None suffix w) = Raise (OtherException "TypeError"))
  ∧ (Contents first = Some [] →
       fst (S3Rest.s3_find_csv self None suffix w) = Ret []).
Proof.
  intros Hc Hpages. split; [|split].
  - intros Hnone path.
    by rewrite (s3_find_csv_first_page self c _ _ w first more failure), Hnone.
  - intros key keys Hkeys.
    by rewrite (s3_find_csv_first_page self c _ _ w first more failure), Hkeys.
  - intros Hkeys.
    by rewrite (s3_find_csv_first_page self c _ _ w first more failure), Hkeys.
Qed.

Lemma s3_find_csv_raises_witness :
  fst (S3Rest.s3_find_csv Demo.conn (Some "2024/") (Some "csv") Cases.empty_bucket)
    = Raise (KeyError "Contents")
  ∧ fst (S3Rest.s3_find_csv Demo.conn None (Some "csv") Cases.listed)
    = Raise (OtherException "TypeError").
Proof.
  split.
  - destruct (s3_find_csv_raises Demo.conn S3.Boto3Client (Some "csv") Cases.empty_bucket
                (Page None None) [] None eq_refl eq_refl) as (Hnone & _).
    apply Hnone. reflexivity.
  - destruct (s3_find_csv_raises Demo.conn S3.Boto3Client (Some "csv") Cases.listed
                (Page (Some ["2024/"; "2023/"])
                   (Some ["2024/jan.csv"; "2024/jan.parquet"; "2023/jan.csv";
                          "2024/csv_notes.txt"; "2024/"]))
                [Page (Some ["2024/"]) (Some ["2025/jan.csv"])] None eq_refl eq_refl)
      as (_ & Htype & _).
    eapply Htype. reflexivity.
Defined.

(** ** Uploads and downloads *)

Section transfers.
Context `{Libs}.


(** X7: when it succeeds, [s3_upload_df] stores the UTF-8 CSV text of the
    table at the key, whatever extension the key has, and [s3_load_file]
    on that key then returns exactly those bytes. *)
Theorem s3_upload_df_stores_csv_text (self : S3.S3ConnectionMR) (c : S3.client)
    (df : DataFrame) (key text : string) (w : world) :
  S3.s3_client self = Some c →
  to_csv df false = Ret text →
  s3_fault w (UploadFile (S3Rest.tmp_path (TmpName "tmp" (tmp_next w) ".csv"))
                (S3.bucket self) key) = None →
  s3_fault w (GetObject (S3.bucket self) key) = None →
  let uploaded := snd (S3Rest.s3_upload_df self df key w) in
  fst (S3Rest.s3_upload_df self df key w) = Ret tt
  ∧ s3_objects uploaded = <[(S3.bucket self, key) := str_encode text]> (s3_objects w)
  ∧ fst (S3.s3_load_file self key uploaded) = Ret (Some (str_encode text)).
Proof.
  intros Hc Htext Hup Hget uploaded. subst uploaded.
  unfold S3.s3_load_file, S3Rest.s3_upload_df, S3.NamedTemporaryFile, S3Rest.upload_tmp_file,
    S3.get_object, S3.getitem, S3.read, S3.client_attr.
  rewrite Hc. run_calls. rewrite Htext. cbn. rewrite Hup. cbn.
  split; [done|]. split; [done|].
  rewrite Hget, lookup_insert_eq. cbn. by rewrite response_Body.
Qed.

End transfers.


Lemma s3_upload_df_stores_csv_text_witness :
  let uploaded := snd (S3Rest.s3_upload_df (H := Demo.TextFrames) Demo.conn Runs.sample
                         "out/loans.parquet" Runs.empty_store) in
  fst (S3.s3_load_file Demo.conn "out/loans.parquet" uploaded)
  = Ret (Some (Demo.encode_utf8 Runs.sample)).
Proof.
  intros uploaded.
  destruct (@s3_upload_df_stores_csv_text Demo.TextFrames Demo.conn S3.Boto3Client
              Runs.sample "out/loans.parquet" Runs.sample Runs.empty_store
              eq_refl eq_refl eq_refl eq_refl) as (_ & _ & Hload).
  exact Hload.
Defined.

Section files.

(** X8: [s3_load_file] never raises, and it returns the bytes of the
    object exactly when there is a client, the request is not failed and the
    object exists: in that case it returns those bytes after one request and
    one info record; in every other case it returns [None] and the last thing
    it did was to log an error. *)
Theorem s3_load_file_never_raises (self : S3.S3ConnectionMR) (key : string) (w : world) :
  let request := GetObject (S3.bucket self) key in
  let failure := Log ERROR [Lit "The key '"; Val (S3.bucket self); Lit "/"; Val key;
                            Lit "' was not downloaded make sure the file exists."] in
  (∃ r, fst (S3.s3_load_file self key w) = Ret r)
  ∧ (∀ c content,
       S3.s3_client self = Some c →
       s3_fault w request = None →
       s3_objects w !! (S3.bucket self, key) = Some content →
       S3.s3_load_file self key w =
         (Ret (Some content),
          emit (Log INFO [Lit "key '"; Val (S3.bucket self); Lit "/"; Val key;
                          Lit "' has been dowloaded from S3!"])
            (emit (S3Call request) w)))
  ∧ (S3.s3_client self = None ∨ is_Some (s3_fault w request)
     ∨ s3_objects w !! (S3.bucket self, key) = None →
       fst (S3.s3_load_file self key w) = Ret None
       ∧ ∃ earlier, trace (snd (S3.s3_load_file self key w)) = failure :: earlier)
  ∧ (∀ content, fst (S3.s3_load_file self key w) = Ret (Some content) →
       s3_objects w !! (S3.bucket self, key) = Some content
       ∧ s3_fault w request = None ∧ is_Some (S3.s3_client self)).
Proof.
  intros request failure. subst request failure.
  unfold S3.s3_load_file, S3.client_attr, S3.get_object, S3.getitem, S3.read.
  destruct (S3.s3_client self) as [c|] eqn:Hc; run_calls.
  2: { split; [eauto|]. split; [done|]. split; [eauto | done]. }
  destruct (s3_fault w (GetObject (S3.bucket self) key)) as [e|] eqn:Hf; cbn.
  { split; [eauto|]. split; [done|]. split; [eauto | done]. }
  destruct (s3_objects w !! (S3.bucket self, key)) as [content|] eqn:Ho; cbn.
  2: { split; [eauto|]. split; [done|]. split; [eauto | done]. }
  rewrite response_Body. cbn. split; [eauto|]. split; [|split].
  - intros c' content' _ _ Hcontent. by injection Hcontent as ->.
  - intros [? | [[? ?] | ?]]; done.
  - intros content' Hret. injection Hret as ->. by eauto.
Qed.

Lemma s3_load_file_never_raises_witness :
  S3.s3_load_file Demo.conn "raw.bin" Runs.store =
    (Ret (Some Runs.parquet_bytes),
     emit (Log INFO [Lit "key '"; Val "risk"; Lit "/"; Val "raw.bin";
                     Lit "' has been dowloaded from S3!"])
       (emit (S3Call (GetObject "risk" "raw.bin")) Runs.store))
  ∧ fst (S3.s3_load_file Demo.conn "raw.bin" Runs.empty_store) = Ret None.
Proof.
  split.
  - destruct (s3_load_file_never_raises Demo.conn "raw.bin" Runs.store)
      as (_ & Hfound & _).
    apply (Hfound S3.Boto3Client Runs.parquet_bytes); [reflexivity | reflexivity |].
    vm_compute. reflexivity.
  - destruct (s3_load_file_never_raises Demo.conn "raw.bin" Runs.empty_store)
      as (_ & _ & Hmissing & _).
    destruct Hmissing as [Hnone _]; [right; right; reflexivity | exact Hnone].
Defined.

(** X9: [s3_upload] never raises and always returns [None], so the caller
    cannot tell a failed upload from a successful one: when the local file
    does not exist (or there is no client) nothing is sent, the store is
    unchanged, and the only trace of the call is an error in the log. *)
Theorem s3_upload_never_raises (self : S3.S3ConnectionMR) (file key : string) (w : world) :
  fst (S3.s3_upload self file key w) = Ret tt
  ∧ (S3.s3_client self = None ∨ local_files w !! file = None →
       snd (S3.s3_upload self file key w) =
         emit (Log ERROR [Lit "The file "; Val file; Lit " could not be uploaded to ";
                          Val (S3.bucket self)]) w).
Proof.
  unfold S3.s3_upload, S3.client_attr, S3.upload_file.
  destruct (S3.s3_client self) as [c|]; run_calls; [|done].
  destruct (local_files w !! file) as [content|]; cbn.
  - destruct (s3_fault w (UploadFile file (S3.bucket self) key)); cbn;
      (split; [done|]); by intros [? | ?].
  - done.
Qed.

(** X10: [s3_download] writes the local file only on success: when it
    returns, the file holds exactly the object and no other local file has
    changed; when it raises, the local files are as before. *)
Theorem s3_download_writes_only_on_success (self : S3.S3ConnectionMR) (file key : string)
    (w : world) :
  match fst (S3.s3_download self file key w) with
  | Ret _ =>
      ∃ content, s3_objects w !! (S3.bucket self, key) = Some content
                 ∧ local_files (snd (S3.s3_download self file key w))
                   = <[file := content]> (local_files w)
  | Raise _ => local_files (snd (S3.s3_download self file key w)) = local_files w
  end.
Proof.
  unfold S3.s3_download, S3.client_attr, S3.download_file.
  destruct (S3.s3_client self) as [c|]; run_calls; [|done].
  destruct (s3_fault w (DownloadFile (S3.bucket self) key file)); cbn; [done|].
  destruct (s3_objects w !! (S3.bucket self, key)) as [content|]; cbn; [|done].
  by exists content.
Qed.

(** X11: uploading a local file with [s3_upload] and downloading the key
    with [s3_download], when both requests go through, gives a copy with the
    content of the original; every other local file is untouched. *)
Theorem s3_upload_then_download_copies (self : S3.S3ConnectionMR) (c : S3.client)
    (file key copy : string) (content : bytes) (w : world) :
  S3.s3_client self = Some c →
  local_files w !! file = Some content →
  s3_fault w (UploadFile file (S3.bucket self) key) = None →
  s3_fault w (DownloadFile (S3.bucket self) key copy) = None →
  let uploaded := snd (S3.s3_upload self file key w) in
  let downloaded := snd (S3.s3_download self copy key uploaded) in
  s3_objects uploaded !! (S3.bucket self, key) = Some content
  ∧ fst (S3.s3_download self copy key uploaded) = Ret tt
  ∧ local_files downloaded !! copy = Some content
  ∧ ∀ other, other ≠ copy → local_files downloaded !! other = local_files w !! other.
Proof.
  intros Hc Hfile Hup Hdown uploaded downloaded. subst uploaded downloaded.
  unfold S3.s3_download, S3.s3_upload, S3.upload_file, S3.download_file, S3.client_attr.
  rewrite Hc. run_calls. rewrite Hfile. cbn. rewrite Hup. cbn.
  rewrite Hdown, lookup_insert_eq. cbn.
  split; [done|]. split; [done|].
  split; [apply lookup_insert_eq|].
  intros other Hother. by rewrite lookup_insert_ne.
Qed.

End files.

Lemma s3_upload_never_raises_witness :
  S3.s3_upload Demo.conn "/tmp/missing.csv" "data/loans.csv" Runs.store =
  (Ret tt,
   emit (Log ERROR [Lit "The file "; Val "/tmp/missing.csv";
                    Lit " could not be uploaded to "; Val "risk"]) Runs.store).
Proof.
  destruct (s3_upload_never_raises Demo.conn "/tmp/missing.csv" "data/loans.csv" Runs.store)
    as (Hret & Hworld).
  specialize (Hworld (or_intror eq_refl)). revert Hret Hworld.
  destruct (S3.s3_upload Demo.conn "/tmp/missing.csv" "data/loans.csv" Runs.store) as [r w'].
  cbn [fst snd]. by intros -> ->.
Defined.

Lemma s3_upload_then_download_witness :
  let w := Runs.with_file Runs.empty_store in
  let uploaded := snd (S3.s3_upload Demo.conn "/tmp/loans.csv" "data/loans.csv" w) in
  local_files (snd (S3.s3_download Demo.conn "/tmp/copy.csv" "data/loans.csv" uploaded))
    !! "/tmp/copy.csv" = Some (Demo.encode_utf8 Runs.sample).
Proof.
  intros w uploaded.
  destruct (s3_upload_then_download_copies Demo.conn S3.Boto3Client "/tmp/loans.csv"
              "data/loans.csv" "/tmp/copy.csv" (Demo.encode_utf8 Runs.sample) w
              eq_refl eq_refl eq_refl eq_refl) as (_ & _ & Hcopy & _).
  exact Hcopy.
Defined.

(** ** The bridge: handles without a client, formats, staging *)

Section bridge_more.
Context `{Libs}.

(** X12: on a handle whose client failed to load ([s3_client] is [None]) no
    operation sends a request.  [scan], [s3_load_file] and [s3_upload] log
    an error and return their empty result; [read_from_s3], [load_from_s3],
    [s3_download], [s3_find_csv] and, once pandas has produced the text,
    [df_to_s3] raise [AttributeError] and leave the world as it was. *)
Theorem operations_without_client (self : S3.S3ConnectionMR) (w : world)
    (path file key text : string) (recursive index : bool) (engine : engine)
    (kw : read_csv_kwargs) (header : bool) (persistence : StorageLevel)
    (find_path find_suffix : option string) (df : DataFrame) :
  S3.s3_client self = None →
  let missing := fun method : string =>
    AttributeError ("'NoneType' object has no attribute '" +:+ method +:+ "'") in
  S3.scan self path recursive w =
    (Ret (S3.Listing [] []),
     emit (Log ERROR [Lit "Error scanning S3 path '"; Val path; Lit "': ";
                      ValExn (missing "get_paginator")]) w)
  ∧ S3.s3_load_file self key w =
      (Ret None,
       emit (Log ERROR [Lit "The key '"; Val (S3.bucket self); Lit "/"; Val key;
                        Lit "' was not downloaded make sure the file exists."]) w)
  ∧ S3.s3_upload self file key w =
      (Ret tt,
       emit (Log ERROR [Lit "The file "; Val file; Lit " could not be uploaded to ";
                        Val (S3.bucket self)]) w)
  ∧ S3.read_from_s3 self key engine kw header persistence w
      = (Raise (missing "get_object"), w)
  ∧ S3.load_from_s3 self key w = (Raise (missing "get_object"), w)
  ∧ S3.s3_download self file key w = (Raise (missing "download_file"), w)
  ∧ S3Rest.s3_find_csv self find_path find_suffix w
      = (Raise (missing "list_objects_v2"), w)
  ∧ (lower (snd (splitext key)) = ".csv" → to_csv df index = Ret text →
       S3.df_to_s3 self (Some df) (Some key) index w = (Raise (missing "put_object"), w)).
Proof.
  intros Hnone missing. subst missing.
  unfold S3.scan, S3.s3_load_file, S3.s3_upload, S3.read_from_s3, S3.load_from_s3,
    S3.s3_download, S3Rest.s3_find_csv, S3.df_to_s3, S3.client_attr.
  rewrite Hnone. run_calls. repeat (split; [reflexivity|]).
  intros Hext Htext. by rewrite (bool_decide_eq_true_2 _ Hext), Htext.
Qed.

(** X13: the writer and the reader agree on every key the writer accepts: a
    key that [df_to_s3] encodes as CSV (its [os.path.splitext] extension is
    [.csv] in any letter case) is decoded as CSV by [read_from_s3] (the text
    after its last dot is [csv]), and likewise for Parquet. *)
Theorem written_format_is_read_format (key : string) :
  (lower (snd (splitext key)) = ".csv" → lower (last_item (split key ".")) = "csv")
  ∧ (lower (snd (splitext key)) = ".parquet" →
       lower (last_item (split key ".")) = "parquet").
Proof. split; apply (splitext_lower_split key "."%char). Qed.

(** X14: [df_to_s3] changes the store only when it succeeds.  When it
    returns, the object at the key is the encoded table (the UTF-8 CSV text,
    or the Parquet bytes) and a success line is logged; when it raises, for
    whatever reason, the store is unchanged and no success line is logged. *)
Theorem df_to_s3_stores_only_on_success (self : S3.S3ConnectionMR) (df : DataFrame)
    (key : string) (index : bool) (w : world) :
  let call := S3.df_to_s3 self (Some df) (Some key) index w in
  match fst call with
  | Ret _ =>
      ∃ content,
        s3_objects (snd call) = <[(S3.bucket self, key) := content]> (s3_objects w)
        ∧ ((∃ text, to_csv df index = Ret text ∧ content = str_encode text)
           ∨ to_parquet df index = Ret content)
        ∧ ∃ line, trace (snd call) =
                    Log INFO line :: S3Call (PutObject (S3.bucket self) key content)
                    :: trace w
  | Raise _ =>
      s3_objects (snd call) = s3_objects w
      ∧ ∀ line, Log INFO line ∈ trace (snd call) → Log INFO line ∈ trace w
  end.
Proof.
  unfold S3.df_to_s3, S3.client_attr, S3.put_object. run_calls.
  destruct (bool_decide (lower (snd (splitext key)) = ".csv")).
  - destruct (to_csv df index) as [text|e]; cbn; [|done].
    destruct (S3.s3_client self); cbn; [|done].
    destruct (s3_fault w _); cbn.
    + split; [done|]. intros line Hin. apply elem_of_cons in Hin as [?|?]; [done|done].
    + eexists. split; [done|]. split; [left; eauto | eauto].
  - destruct (bool_decide (lower (snd (splitext key)) = ".parquet")); [|done].
    destruct (to_parquet df index) as [content|e] eqn:Hp; cbn; [|done].
    destruct (S3.s3_client self); cbn; [|done].
    destruct (s3_fault w _); cbn.
    + split; [done|]. intros line Hin. apply elem_of_cons in Hin as [?|?]; [done|done].
    + eexists. split; [done|]. split; [by right | eauto].
Qed.

End bridge_more.

Lemma operations_without_client_witness :
  S3.read_from_s3 (H := Demo.TextFrames) Cases.no_client "data/loans.csv" EngineNone
    S3.default_kwargs true DISK_ONLY Runs.store
  = (Raise (AttributeError "'NoneType' object has no attribute 'get_object'"), Runs.store).
Proof.
  destruct (@operations_without_client Demo.TextFrames Cases.no_client Runs.store
              "" "" "data/loans.csv" "" false false EngineNone S3.default_kwargs true
              DISK_ONLY None None Runs.sample eq_refl)
    as (_ & _ & _ & Hread & _).
  exact Hread.
Defined.

Section staging.
Context `{Libs}.

(** [df_to_s3] on a [.parquet] key, when pandas produces the bytes and the
    store takes the request. *)
Lemma df_to_s3_parquet (self : S3.S3ConnectionMR) (c : S3.client) (df : DataFrame)
    (key : string) (content : bytes) (index : bool) (w : world) :
  S3.s3_client self = Some c →
  lower (snd (splitext key)) = ".parquet" →
  to_parquet df index = Ret content →
  s3_fault w (PutObject (S3.bucket self) key content) = None →
  S3.df_to_s3 self (Some df) (Some key) index w =
    (Ret tt,
     emit (Log INFO [Lit "File with "; ValN (shape0 df); Lit " rows was written to ";
                     Val key; Lit " (index="; Val (if index then "True" else "False");
                     Lit ")"])
       (set_objects (<[(S3.bucket self, key) := content]> (s3_objects w))
          (emit (S3Call (PutObject (S3.bucket self) key content)) w))).
Proof.
  intros Hc Hext Hcontent Hfault.
  unfold S3.df_to_s3, S3.client_attr, S3.put_object. rewrite Hc. run_calls.
  rewrite bool_decide_eq_false_2 by (rewrite Hext; discriminate).
  rewrite (bool_decide_eq_true_2 _ Hext), Hcontent. cbn. by rewrite Hfault.
Qed.

(** X15: a table written with [df_to_s3] to a [.parquet] key and read back
    with a Spark session is staged byte for byte: [read_from_s3] writes a
    temporary file holding exactly the bytes [to_parquet] produced, named
    after the session (application name with spaces replaced by
    underscores, then ["_"]) with suffix [.parquet], and returns the table
    read from that file, limited to [nrows] rows when [nrows] is given and
    not zero, persisted at the requested level. *)
Theorem parquet_write_then_spark_read (self : S3.S3ConnectionMR) (c : S3.client)
    (df : DataFrame) (key : string) (content : bytes) (index : bool)
    (sc : SparkContext) (kw : read_csv_kwargs) (header : bool)
    (persistence : StorageLevel) (w : world) :
  S3.s3_client self = Some c →
  lower (snd (splitext key)) = ".parquet" →
  to_parquet df index = Ret content →
  s3_fault w (PutObject (S3.bucket self) key content) = None →
  s3_fault w (GetObject (S3.bucket self) key) = None →
  let written := snd (S3.df_to_s3 self (Some df) (Some key) index w) in
  let staged := TmpName (replace (appName sc) " " "_" +:+ "_") (tmp_next w) ".parquet" in
  let read := S3.read_from_s3 self key (SparkSession sc) kw header persistence written in
  fst read =
    Ret (Some (S3.DistributedTable
                 (Persist persistence (S3.spark_limit (kw_nrows kw) (ReadParquet staged)))))
  ∧ trace (snd read) =
      TempFile staged content :: S3Call (GetObject (S3.bucket self) key) :: trace written.
Proof.
  intros Hc Hext Hcontent Hput Hget written staged read. subst written staged read.
  rewrite (df_to_s3_parquet self c df key content) by done. cbn [snd].
  pose proof (splitext_lower_split key "."%char "parquet" Hext) as Hread.
  unfold S3.read_from_s3, S3.client_attr, S3.get_object, S3.getitem, S3.read,
    S3.NamedTemporaryFile, sparkContext.
  rewrite Hc. run_calls. rewrite Hget, lookup_insert_eq. cbn.
  rewrite Hread. cbn. rewrite response_Body. cbn. done.
Qed.

(** X16: a row limit of zero means different things to the two engines.
    With a Spark session [nrows=0] is no limit at all: the call does exactly
    what it does for [nrows=None] (the limit is applied under [if nrows:]),
    for CSV and for Parquet keys alike.  With [engine=None] on a CSV key the
    zero is handed to [pd.read_csv] as it is. *)
Theorem zero_nrows_is_no_limit_for_spark (self : S3.S3ConnectionMR) (filename : string)
    (sc : SparkContext) (kw : read_csv_kwargs) (header : bool)
    (persistence : StorageLevel) (w : world) :
  S3.read_from_s3 self filename (SparkSession sc) (S3Rest.with_nrows (Some 0) kw)
    header persistence w
  = S3.read_from_s3 self filename (SparkSession sc) (S3Rest.with_nrows None kw)
      header persistence w
  ∧ ∀ c content text,
      S3.s3_client self = Some c →
      lower (last_item (split filename ".")) = "csv" →
      s3_fault w (GetObject (S3.bucket self) filename) = None →
      s3_objects w !! (S3.bucket self, filename) = Some content →
      bytes_decode (kw_encoding kw) content = Ret text →
      fst (S3.read_from_s3 self filename EngineNone (S3Rest.with_nrows (Some 0) kw)
             header persistence w)
      = match read_csv text (S3Rest.with_nrows (Some 0) kw) with
        | Ret df => Ret (Some (S3.LocalTable df))
        | Raise e => Raise e
        end.
Proof.
  split; [reflexivity|].
  intros c content text Hc Hext Hfault Hobj Htext.
  rewrite (read_from_s3_csv_local self c filename _ _ _ w content) by done.
  cbn [S3Rest.with_nrows kw_encoding]. by rewrite Htext.
Qed.

(** X17: [df_to_s3] rejects every key that has no dot, whatever its name,
    with the [ValueError] of its precondition and before any request, while
    [read_from_s3] takes the whole of such a key for its extension. *)
Theorem dotless_keys (self : S3.S3ConnectionMR) (df : DataFrame) (key : string)
    (index : bool) (w : world) :
  "."%char ∉ chars key →
  S3.df_to_s3 self (Some df) (Some key) index w =
    (Raise (ValueError "Unsupported file extension. Use a key ending in '.csv' or '.parquet'."),
     w)
  ∧ last_item (split key ".") = key.
Proof.
  intros Hdot.
  assert (Hsplit : ∀ l i, "."%char ∉ l →
            rfind_from "." l i = -1 ∧ split_chars "." l = [l]).
  { induction l as [|x r IH]; intros i Hl; [done|]. cbn [rfind_from split_chars].
    apply not_elem_of_cons in Hl as [Hx Hr].
    destruct (IH (i + 1) Hr) as [-> ->]. cbn [Z.leb Z.compare].
    by rewrite bool_decide_eq_false_2 by congruence. }
  destruct (Hsplit (chars key) 0 Hdot) as [Hrfind Hone]. split.
  - assert (Hext : snd (splitext key) = "").
    { unfold splitext, rfind. rewrite Hrfind.
      destruct (rfind_from_split "/" (chars key) 0) as [[-> _] | (Hsep & _)]; [lia|done|].
      destruct (rfind_from "/" (chars key) 0 <? -1) eqn:Hlt; [|done].
      apply Z.ltb_lt in Hlt. lia. }
    unfold S3.df_to_s3. run_calls. rewrite Hext. reflexivity.
  - unfold last_item, split. rewrite Hone. cbn. apply str_chars.
Qed.

End staging.

Lemma parquet_write_then_spark_read_witness :
  let written := snd (S3.df_to_s3 (H := Demo.TextFrames) Demo.conn (Some Runs.sample)
                        (Some "out/loans.PARQUET") false Runs.empty_store) in
  fst (S3.read_from_s3 (H := Demo.TextFrames) Demo.conn "out/loans.PARQUET" Runs.session
         (S3Rest.with_nrows (Some 10) S3.default_kwargs) true MEMORY_ONLY_SER written)
  = Ret (Some (S3.DistributedTable
                 (Persist MEMORY_ONLY_SER
                    (Limit 10 (ReadParquet (TmpName "risk_report_" 0 ".parquet")))))).
Proof.
  intros written.
  destruct (@parquet_write_then_spark_read Demo.TextFrames Demo.conn S3.Boto3Client
              Runs.sample "out/loans.PARQUET" (Demo.encode_utf8 Runs.sample) false
              {| appName := "risk report"; applicationId := "app-0001" |}
              (S3Rest.with_nrows (Some 10) S3.default_kwargs) true MEMORY_ONLY_SER
              Runs.empty_store) as (Hread & _).
  - reflexivity.
  - vm_compute. reflexivity.
  - reflexivity.
  - reflexivity.
  - reflexivity.
  - exact Hread.
Defined.

Lemma dotless_keys_witness :
  S3.df_to_s3 (H := Demo.TextFrames) Demo.conn (Some Runs.sample) (Some "csv") false
    Runs.store
  = (Raise (ValueError "Unsupported file extension. Use a key ending in '.csv' or '.parquet'."),
     Runs.store)
  ∧ lower (last_item (split "csv" ".")) = "csv".
Proof.
  destruct (@dotless_keys Demo.TextFrames Demo.conn Runs.sample "csv" false Runs.store)
    as (Hwrite & Hread).
  - decide_false.
  - split; [exact Hwrite | by rewrite Hread].
Defined.

(** ** [clear_cache] *)

Section cache.

Lemma is_prefix_app (p a b : list ascii) :
  S3Rest.is_prefix p a = true → S3Rest.is_prefix p (a ++ b) = true.
Proof.
  rewrite !is_prefix_spec. intros [t ->]. exists (t ++ b)%list. by rewrite app_assoc.
Qed.

Lemma startswith_append (a b p : string) :
  S3Rest.startswith a p = true → S3Rest.startswith (a +:+ b) p = true.
Proof. unfold S3Rest.startswith. rewrite chars_append. apply is_prefix_app. Qed.

Lemma filter_keeps_all {A} (P : A → Prop) `{!∀ x, Decision (P x)} (l : list A) :
  (∀ x, P x) → filter P l = l.
Proof.
  intros HP. induction l as [|x l IH]; [done|].
  by rewrite filter_cons, decide_True, IH.
Qed.

Lemma filter_agree {A} (P Q : A → Prop) `{!∀ x, Decision (P x), !∀ x, Decision (Q x)}
    (l : list A) :
  (∀ x, x ∈ l → (P x ↔ Q x)) → filter P l = filter Q l.
Proof.
  induction l as [|x l IH]; intros HPQ; [done|].
  rewrite !filter_cons, IH by (intros y Hy; apply HPQ; by right).
  destruct (decide (P x)) as [HP|HP], (decide (Q x)) as [HQ|HQ]; try done.
  - destruct HQ. apply HPQ; [by left | done].
  - destruct HP. apply HPQ; [by left | done].
Qed.

(** [os.remove] on a name all of whose entries are files. *)
Lemma remove_file (file : string) (h : Cache.host) :
  file ∈ (Cache.entries h).*1 →
  (∀ ent, (file, ent) ∈ Cache.entries h → ∃ content, ent = Cache.File content) →
  Cache.remove file h =
    (Ret tt,
     Cache.Host (Cache.temp_dir h)
       (filter (fun e => fst e ≠ file) (Cache.entries h)) (Cache.stdout h)).
Proof.
  intros Hin Hfiles. unfold Cache.remove.
  apply list_elem_of_fmap in Hin as ([n ent] & Hn & Hent). cbn in Hn. subst n.
  destruct (list_find_elem_of (fun e => fst e = file) (Cache.entries h) (file, ent))
    as [[i [n ent']] Hfind]; [done..|].
  rewrite Hfind. apply list_find_Some in Hfind as (Hi & Hname & _). cbn in Hname. subst n.
  apply list_elem_of_lookup_2 in Hi. by destruct (Hfiles ent' Hi) as [content ->].
Qed.

(** The loop over names whose entries can all be removed: it goes through
    the whole list, removes the matching ones and prints a line for each. *)
Lemma clear_loop_files (app_name : string) (names : list string) (h : Cache.host) :
  NoDup names →
  (∀ n, n ∈ names → n ∈ (Cache.entries h).*1) →
  (∀ n ent, (n, ent) ∈ Cache.entries h → n ∈ names →
            S3Rest.startswith n app_name = true → ∃ content, ent = Cache.File content) →
  Cache.clear_loop app_name names h =
    (Ret tt,
     Cache.Host (Cache.temp_dir h)
       (filter (fun e => ¬ (fst e ∈ names ∧ S3Rest.startswith (fst e) app_name = true))
          (Cache.entries h))
       (rev ((fun n => [Lit "Eliminado: "; Val (Cache.join (Cache.temp_dir h) n)])
             <$> filter (fun n => S3Rest.startswith n app_name = true) names)
        ++ Cache.stdout h)%list).
Proof.
  revert h. induction names as [|file rest IH]; intros h Hnodup Hlisted Hfiles.
  - cbn. rewrite filter_keeps_all; [by destruct h|].
    intros e [Hin _]. by apply elem_of_nil in Hin.
  - apply NoDup_cons in Hnodup as [Hfresh Hnodup].
    cbn [Cache.clear_loop]. rewrite filter_cons.
    destruct (S3Rest.startswith file app_name) eqn:Hmatch.
    + rewrite remove_file.
      2: { apply Hlisted. by left. }
      2: { intros ent Hent. apply (Hfiles file ent Hent); [by left | done]. }
      rewrite IH; [| done | |]; cbn [Cache.temp_dir Cache.entries Cache.stdout Cache.print].
      * rewrite decide_True by done. f_equal. f_equal.
        -- rewrite list_filter_filter. apply list_filter_iff. intros [n ent]. cbn.
           rewrite elem_of_cons. split.
           ++ intros [Hrest Hne] [[-> | Hin] Hm]; [done | by apply Hrest].
           ++ intros Hnot. split; [intros [Hin Hm]; apply Hnot; auto|].
              intros ->. apply Hnot. auto.
        -- cbn [fmap list_fmap rev]. by rewrite <- app_assoc.
      * intros n Hn. apply list_elem_of_fmap.
        assert (n ∈ (Cache.entries h).*1) as Hin by (apply Hlisted; by right).
        apply list_elem_of_fmap in Hin as ([n' ent] & -> & Hent).
        exists (n', ent). split; [done|]. apply list_elem_of_filter. split; [|done].
        cbn. intros ->. done.
      * intros n ent Hent Hn Hm. apply list_elem_of_filter in Hent as [_ Hent].
        apply (Hfiles n ent Hent); [by right | done].
    + rewrite IH; [| done | |].
      * rewrite decide_False by congruence. f_equal. f_equal.
        apply list_filter_iff. intros [n ent]. cbn. rewrite elem_of_cons. split.
        -- intros Hrest [[-> | Hin] Hm]; [congruence | by apply Hrest].
        -- intros Hnot [Hin Hm]. apply Hnot. auto.
      * intros n Hn. apply Hlisted. by right.
      * intros n ent Hent Hn Hm. apply (Hfiles n ent Hent); [by right | done].
Qed.

(** [clear_cache] over a directory where every matching entry is a file. *)
Lemma clear_cache_files (spark_session : engine) (sc : SparkContext) (h : Cache.host) :
  Cache.context_of spark_session = Ret sc →
  NoDup (Cache.entries h).*1 →
  (∀ n ent, (n, ent) ∈ Cache.entries h →
            S3Rest.startswith n (replace (appName sc) " " "_") = true →
            ∃ content, ent = Cache.File content) →
  Cache.clear_cache spark_session h =
    (Ret tt,
     Cache.Host (Cache.temp_dir h)
       (filter (fun e => S3Rest.startswith (fst e) (replace (appName sc) " " "_") = false)
          (Cache.entries h))
       (rev ((fun n => [Lit "Eliminado: "; Val (Cache.join (Cache.temp_dir h) n)])
             <$> filter (fun n => S3Rest.startswith n (replace (appName sc) " " "_") = true)
                   (Cache.entries h).*1)
        ++ Cache.stdout h)%list).
Proof.
  intros Hsc Hnodup Hfiles. unfold Cache.clear_cache. rewrite Hsc.
  rewrite clear_loop_files; [| done | done | by eauto].
  f_equal. f_equal. apply filter_agree. intros [n ent] Hent. cbn. split.
  - intros Hnot. destruct (S3Rest.startswith n _) eqn:Hm; [|done].
    destruct Hnot. split; [|done]. apply list_elem_of_fmap. by exists (n, ent).
  - intros Hm [_ Hm']. congruence.
Qed.

End cache.

Section cache_outcomes.

Lemma clear_loop_app (app_name : string) (first second : list string) (h : Cache.host) :
  Cache.clear_loop app_name (first ++ second) h =
    match Cache.clear_loop app_name first h with
    | (Ret _, h1) => Cache.clear_loop app_name second h1
    | (Raise e, h1) => (Raise e, h1)
    end.
Proof.
  revert h. induction first as [|file rest IH]; intros h; [done|].
  cbn [app Cache.clear_loop]. destruct (S3Rest.startswith file app_name); [|apply IH].
  destruct (Cache.remove file h) as [[[]|e] h1]; [apply IH | done].
Qed.

Lemma filter_keeps_listed {A} (P : A → Prop) `{!∀ x, Decision (P x)} (l : list A) :
  (∀ x, x ∈ l → P x) → filter P l = l.
Proof.
  intros HP. rewrite <- (filter_keeps_all (fun _ => True) l) at 2 by done.
  apply filter_agree. intros x Hx. split; [done | intros _; by apply HP].
Qed.

End cache_outcomes.

(** X18: when every entry of the temporary directory whose name starts
    with the session's application name (spaces replaced by underscores) is
    a file, [clear_cache] removes exactly those entries and leaves every
    other entry, in place and in order; it prints one line for each file it
    removed and returns normally. *)
Theorem clear_cache_removes_matching_files (spark_session : engine) (sc : SparkContext)
    (h : Cache.host) :
  Cache.context_of spark_session = Ret sc →
  NoDup (Cache.entries h).*1 →
  (∀ n ent, (n, ent) ∈ Cache.entries h →
            S3Rest.startswith n (replace (appName sc) " " "_") = true →
            ∃ content, ent = Cache.File content) →
  let matches := fun n => S3Rest.startswith n (replace (appName sc) " " "_") in
  fst (Cache.clear_cache spark_session h) = Ret tt
  ∧ Cache.entries (snd (Cache.clear_cache spark_session h))
    = filter (fun e => matches (fst e) = false) (Cache.entries h)
  ∧ length (Cache.stdout (snd (Cache.clear_cache spark_session h)))
    = (length (filter (fun n => matches n = true) (Cache.entries h).*1)
       + length (Cache.stdout h))%nat.
Proof.
  intros Hsc Hnodup Hfiles matches. subst matches.
  rewrite (clear_cache_files spark_session sc h) by done. cbn.
  split; [done|]. split; [done|].
  by rewrite length_app, length_rev, length_fmap.
Qed.

Lemma clear_cache_removes_matching_files_witness :
  Cache.entries (snd (Cache.clear_cache Cases.risk Cases.tmp))
  = [("notes.txt", Cache.File []); ("other_app_9.csv", Cache.File [])].
Proof.
  destruct (clear_cache_removes_matching_files Cases.risk
              {| appName := "risk"; applicationId := "app-0002" |} Cases.tmp)
    as (_ & Hentries & _).
  - reflexivity.
  - apply (bool_decide_unpack _). vm_compute. exact I.
  - intros n ent Hin Hm. cbn in Hin.
    repeat (apply elem_of_cons in Hin as [Hin | Hin]; [injection Hin as -> ->; eauto|]).
    by apply elem_of_nil in Hin.
  - rewrite Hentries. vm_compute. reflexivity.
Defined.

(** X19: [clear_cache] matches on the application name alone, without the
    ["_"] that [read_from_s3] puts after it in the names of the files it
    stages: the staged files of every other session whose application name
    (spaces replaced by underscores) starts with this session's are removed
    as well. *)
Theorem clear_cache_removes_files_of_longer_names (spark_session : engine)
    (sc other : SparkContext) (h : Cache.host) (middle : string) (content : bytes) :
  Cache.context_of spark_session = Ret sc →
  NoDup (Cache.entries h).*1 →
  (∀ n ent, (n, ent) ∈ Cache.entries h →
            S3Rest.startswith n (replace (appName sc) " " "_") = true →
            ∃ content, ent = Cache.File content) →
  S3Rest.startswith (replace (appName other) " " "_") (replace (appName sc) " " "_") = true →
  let staged := replace (appName other) " " "_" +:+ "_" +:+ middle in
  (staged, Cache.File content) ∈ Cache.entries h →
  (staged, Cache.File content) ∉ Cache.entries (snd (Cache.clear_cache spark_session h)).
Proof.
  intros Hsc Hnodup Hfiles Hlonger staged Hin.
  rewrite (clear_cache_files spark_session sc h) by done. cbn.
  rewrite list_elem_of_filter. cbn. intros [Hkept _].
  subst staged. rewrite startswith_append in Hkept; done.
Qed.

Lemma clear_cache_removes_files_of_longer_names_witness :
  ("risk_report_ab12.parquet", Cache.File Runs.parquet_bytes)
    ∉ Cache.entries (snd (Cache.clear_cache Cases.risk Cases.tmp)).
Proof.
  apply (clear_cache_removes_files_of_longer_names Cases.risk
           {| appName := "risk"; applicationId := "app-0002" |}
           {| appName := "risk report"; applicationId := "app-0001" |}
           Cases.tmp "ab12.parquet" Runs.parquet_bytes).
  - reflexivity.
  - apply (bool_decide_unpack _). vm_compute. exact I.
  - intros n ent Hin Hm. cbn in Hin.
    repeat (apply elem_of_cons in Hin as [Hin | Hin]; [injection Hin as -> ->; eauto|]).
    by apply elem_of_nil in Hin.
  - vm_compute. reflexivity.
  - apply elem_of_cons. left. reflexivity.
Defined.

(** X20: the first matching entry that cannot be removed (a directory) ends
    the clean-up: the matching files listed before it are gone, it and
    everything listed after it stay, matching files included; the failure is
    printed and the call still returns normally. *)
Theorem clear_cache_stops_at_directory (spark_session : engine) (sc : SparkContext)
    (h : Cache.host) (before after : list (string * Cache.entry)) (d : string) :
  Cache.context_of spark_session = Ret sc →
  Cache.entries h = (before ++ (d, Cache.Directory) :: after)%list →
  NoDup (Cache.entries h).*1 →
  S3Rest.startswith d (replace (appName sc) " " "_") = true →
  (∀ n ent, (n, ent) ∈ before →
            S3Rest.startswith n (replace (appName sc) " " "_") = true →
            ∃ content, ent = Cache.File content) →
  fst (Cache.clear_cache spark_session h) = Ret tt
  ∧ Cache.entries (snd (Cache.clear_cache spark_session h))
    = (filter (fun e => S3Rest.startswith (fst e) (replace (appName sc) " " "_") = false)
         before
       ++ (d, Cache.Directory) :: after)%list
  ∧ ∃ earlier,
      Cache.stdout (snd (Cache.clear_cache spark_session h))
      = [Lit "Error al limpiar caché: "; ValExn (OtherException "IsADirectoryError")]
        :: earlier.
Proof.
  intros Hsc Hentries Hnodup Hd Hfiles.
  pose proof Hnodup as Hnames. rewrite Hentries, fmap_app, fmap_cons in Hnames.
  apply NoDup_app in Hnames as (Hbefore & Hapart & _). cbn [fst] in Hapart.
  unfold Cache.clear_cache. rewrite Hsc, Hentries, fmap_app, fmap_cons, clear_loop_app.
  rewrite clear_loop_files; [| done | |].
  - cbn [fst Cache.clear_loop Cache.entries Cache.temp_dir]. rewrite Hd, Hentries, filter_app.
    rewrite (filter_agree _
               (fun e => S3Rest.startswith (fst e) (replace (appName sc) " " "_") = false)
               before).
    2: { intros [n ent] Hin. cbn. split.
         - intros Hnot. destruct (S3Rest.startswith n _) eqn:Hm; [|done].
           destruct Hnot. split; [|done]. apply list_elem_of_fmap. by exists (n, ent).
         - intros Hm [_ Hm']. congruence. }
    rewrite (filter_keeps_listed _ ((d, Cache.Directory) :: after)).
    2: { intros [n ent] Hin [Hn _]. cbn in Hn. apply (Hapart n Hn).
         apply elem_of_cons in Hin as [Hin | Hin]; [injection Hin as -> ->; by left|].
         right. apply list_elem_of_fmap. by exists (n, ent). }
    unfold Cache.remove. cbn [Cache.entries].
    rewrite list_find_app_r.
    2: { apply list_find_None, Forall_forall. intros [n ent] Hin Hn. cbn in Hn. subst n.
         apply list_elem_of_filter in Hin as [_ Hin].
         apply (Hapart d); [apply list_elem_of_fmap; by exists (d, ent) | by left]. }
    cbn. rewrite decide_True by done. cbn. split; [done|]. split; [done|]. eauto.
  - intros n Hn. rewrite Hentries, fmap_app. apply elem_of_app. by left.
  - intros n ent Hin Hn Hm. rewrite Hentries in Hin.
    apply elem_of_app in Hin as [Hin | Hin]; [by apply (Hfiles n ent)|].
    destruct (Hapart n Hn).
    apply elem_of_cons in Hin as [Hin | Hin]; [injection Hin as -> ->; by left|].
    right. apply list_elem_of_fmap. by exists (n, ent).
Qed.

Lemma clear_cache_stops_at_directory_witness :
  Cache.entries (snd (Cache.clear_cache Cases.risk Cases.tmp_with_directory))
  = [("risk_report", Cache.Directory);
     ("risk_report_ab12.parquet", Cache.File Runs.parquet_bytes)].
Proof.
  destruct (clear_cache_stops_at_directory Cases.risk
              {| appName := "risk"; applicationId := "app-0002" |}
              Cases.tmp_with_directory
              [("risk_17.csv", Cache.File [])]
              [("risk_report_ab12.parquet", Cache.File Runs.parquet_bytes)]
              "risk_report") as (_ & Hentries & _).
  - reflexivity.
  - reflexivity.
  - apply (bool_decide_unpack _). vm_compute. exact I.
  - vm_compute. reflexivity.
  - intros n ent Hin Hm.
    apply elem_of_cons in Hin as [Hin | Hin]; [injection Hin as -> ->; eauto|].
    by apply elem_of_nil in Hin.
  - rewrite Hentries. vm_compute. reflexivity.
Defined.

(** ** The key-value client, connected *)

(** X21: on a connected handle the six item operations handle
    [ClientError] and nothing else.  When the service fails the request with
    a [ClientError], the operation returns [None] (or the empty list); when
    it fails with any other exception, that exception reaches the caller. *)
Theorem connected_operations_handle_only_client_error
    (self : Dynamo.DynamoDBConnection) (t : Dynamo.Table) (w : world) (e : exn)
    (i key expression_values : item) (update_expression partition_key : string)
    (filter_expression : option string) (scan_values : option item)
    (limit : option Z) (partition_value : attr) :
  Dynamo.table self = Some t →
  (∀ request, table_reply w request = Raise e) →
  fst (Dynamo.put_item self i w) = (if is_ClientError e then Ret None else Raise e)
  ∧ fst (Dynamo.get_item self key w) = (if is_ClientError e then Ret None else Raise e)
  ∧ fst (Dynamo.update_item self key update_expression expression_values w)
    = (if is_ClientError e then Ret None else Raise e)
  ∧ fst (Dynamo.delete_item self key w) = (if is_ClientError e then Ret None else Raise e)
  ∧ fst (Dynamo.scan_table self filter_expression scan_values limit w)
    = (if is_ClientError e then Ret [] else Raise e)
  ∧ fst (Dynamo.query_table self partition_key partition_value w)
    = (if is_ClientError e then Ret [] else Raise e).
Proof.
  intros Ht Hdown.
  unfold Dynamo.put_item, Dynamo.get_item, Dynamo.update_item, Dynamo.delete_item,
    Dynamo.scan_table, Dynamo.query_table, Dynamo.table_call.
  rewrite Ht. run_calls. rewrite !Hdown. cbn.
  by destruct (is_ClientError e).
Qed.

Lemma connected_operations_handle_only_client_error_witness :
  fst (Dynamo.put_item Cases.users {[ "id" := AttrS "u1" ]} Cases.offline)
    = Raise (OtherException "EndpointConnectionError")
  ∧ fst (Dynamo.put_item Cases.users {[ "id" := AttrS "u1" ]} Cases.throttled) = Ret None.
Proof.
  split.
  - destruct (connected_operations_handle_only_client_error Cases.users
                {| Dynamo.name := "users" |} Cases.offline
                (OtherException "EndpointConnectionError")
                {[ "id" := AttrS "u1" ]} ∅ ∅ "" "" None None None (AttrS "")
                eq_refl (fun _ => eq_refl)) as (Hput & _).
    exact Hput.
  - destruct (connected_operations_handle_only_client_error Cases.users
                {| Dynamo.name := "users" |} Cases.throttled
                (ClientError "ProvisionedThroughputExceededException")
                {[ "id" := AttrS "u1" ]} ∅ ∅ "" "" None None None (AttrS "")
                eq_refl (fun _ => eq_refl)) as (Hput & _).
    exact Hput.
Defined.

(** X22: [update_item] reads [response['Attributes']] unguarded: when the
    service answers without that entry, the request has been sent and the
    call raises [KeyError], which its handler does not take; nothing is
    logged. *)
Theorem update_item_without_attributes_raises
    (self : Dynamo.DynamoDBConnection) (t : Dynamo.Table) (w : world)
    (key expression_values : item) (update_expression : string)
    (response : table_response) :
  Dynamo.table self = Some t →
  table_reply w (UpdateItem (Dynamo.name t) key update_expression expression_values
                   "UPDATED_NEW") = Ret response →
  Attributes response = None →
  Dynamo.update_item self key update_expression expression_values w =
    (Raise (KeyError "Attributes"),
     emit (TableCall (UpdateItem (Dynamo.name t) key update_expression expression_values
                        "UPDATED_NEW")) w).
Proof.
  intros Ht Hreply Hnone. unfold Dynamo.update_item, Dynamo.table_call.
  rewrite Ht. run_calls. rewrite Hreply. cbn. by rewrite Hnone.
Qed.

Lemma update_item_without_attributes_witness :
  fst (Dynamo.update_item Cases.users {[ "id" := AttrS "u1" ]} "SET #n = :n"
         {[ ":n" := AttrS "Ana" ]} Runs.store) = Raise (KeyError "Attributes").
Proof.
  rewrite (update_item_without_attributes_raises Cases.users {| Dynamo.name := "users" |}
             Runs.store {[ "id" := AttrS "u1" ]} {[ ":n" := AttrS "Ana" ]} "SET #n = :n"
             (TableResponse None None None) eq_refl eq_refl eq_refl).
  reflexivity.
Defined.

(** X23: [scan_table] drops arguments that are falsy.  With no filter (or
    an empty one) the expression values are not sent, whatever they are, and
    a limit of zero is no limit: the request is the bare scan of the table
    and the result is that of [scan_table()] without arguments. *)
Theorem scan_table_drops_falsy_arguments
    (self : Dynamo.DynamoDBConnection) (t : Dynamo.Table) (w : world)
    (filter_expression : option string) (scan_values : option item) (limit : option Z) :
  Dynamo.table self = Some t →
  filter_expression = None ∨ filter_expression = Some "" →
  limit = None ∨ limit = Some 0 →
  fst (Dynamo.scan_table self filter_expression scan_values limit w)
    = fst (Dynamo.scan_table self None None None w)
  ∧ TableCall (Scan (Dynamo.name t) None None None)
      ∈ trace (snd (Dynamo.scan_table self filter_expression scan_values limit w)).
Proof.
  intros Ht Hfilter Hlimit. unfold Dynamo.scan_table, Dynamo.table_call.
  rewrite Ht. run_calls.
  assert (Dynamo.expr_truthy filter_expression = false) as ->
    by (by destruct Hfilter as [-> | ->]).
  assert (Dynamo.limit_truthy limit = false) as -> by (by destruct Hlimit as [-> | ->]).
  cbn. destruct (table_reply w (Scan (Dynamo.name t) None None None)) as [response | e]; cbn.
  - split; [done|]. rewrite !elem_of_cons. auto.
  - destruct (is_ClientError e); cbn; (split; [done|]); rewrite !elem_of_cons; auto.
Qed.

Lemma scan_table_drops_falsy_arguments_witness :
  TableCall (Scan "users" None None None)
    ∈ trace (snd (Dynamo.scan_table Cases.users (Some "") (Some {[ ":n" := AttrS "Ana" ]})
                    (Some 0) Runs.store)).
Proof.
  destruct (scan_table_drops_falsy_arguments Cases.users {| Dynamo.name := "users" |}
              Runs.store (Some "") (Some {[ ":n" := AttrS "Ana" ]}) (Some 0)
              eq_refl (or_intror eq_refl) (or_intror eq_refl)) as (_ & Hsent).
  exact Hsent.
Defined.

(** X24: [connect_table] contacts no service and checks no name.  With a
    resource the handle is Connected to the name it is given and the next
    [get_item] goes to that table; without a resource the handle is returned
    unchanged after an error is logged. *)
Theorem connect_table_then_get_item (self : Dynamo.DynamoDBConnection)
    (table_name : string) (key : item) (w : world) :
  (∀ r, Dynamo.dynamodb self = Some r →
     ∃ connected,
       Dynamo.connect_table self table_name w =
         (Ret connected, emit (Log INFO [Lit "Connected to table "; Val table_name]) w)
       ∧ Dynamo.table connected = Some {| Dynamo.name := table_name |}
       ∧ ∃ later,
           trace (snd (Dynamo.get_item connected key
                         (snd (Dynamo.connect_table self table_name w))))
           = (later ++ TableCall (GetItem table_name key)
                :: Log INFO [Lit "Connected to table "; Val table_name] :: trace w)%list)
  ∧ (Dynamo.dynamodb self = None →
       Dynamo.connect_table self table_name w =
         (Ret self, emit (Log ERROR [Lit "DynamoDB client is not initialized."]) w)).
Proof.
  unfold Dynamo.connect_table. split.
  - intros r Hr. rewrite Hr. run_calls. eexists. split; [done|]. split; [done|].
    rewrite (get_item_connected _ {| Dynamo.name := table_name |}) by done. cbn.
    destruct (table_reply w (GetItem table_name key)) as [response | e]; cbn.
    + destruct (Item response); by eexists [_].
    + destruct (is_ClientError e); [by eexists [_] | by exists []].
  - intros Hnone. by rewrite Hnone.
Qed.

(** ** [create_table] *)


Lemma connect_table_then_get_item_witness :
  ∃ connected,
    fst (Dynamo.connect_table Cases.fresh "no such table" Runs.store) = Ret connected
    ∧ Dynamo.table connected = Some {| Dynamo.name := "no such table" |}.
Proof.
  destruct (connect_table_then_get_item Cases.fresh "no such table"
              {[ "id" := AttrS "u1" ]} Runs.store) as (Hconnect & _).
  destruct (Hconnect Dynamo.Boto3Resource eq_refl) as (connected & Hrun & Htable & _).
  exists connected. split; [by rewrite Hrun | exact Htable].
Defined.

